(** * X25519 keys of the OpenSSL backend

    A shallow embedding of
    [src/cryptography/hazmat/backends/openssl/x25519.py]: the two key
    classes [_X25519PublicKey] and [_X25519PrivateKey], their export
    methods, public key derivation and the key exchange.

    The Python methods do nothing but validate their arguments and call
    into the backend (OpenSSL through cffi).  A method is therefore
    embedded as a {e program}: a finite tree whose inner nodes are the
    backend calls the method issues, in the order of the source, and
    whose leaves are a returned value or an exception raised by the
    method itself.  A program is run against a {e provider}, a state
    machine that answers every backend call; running yields the outcome,
    the final provider state and the list of calls issued. *)

From Stdlib Require Import String List ZArith NArith Lia Bool Zpow_facts.
From Stdlib.Strings Require Import Byte.
From Bignums Require Import BigZ.
Import ListNotations.
Open Scope Z_scope.

Set Implicit Arguments.

(** ** Data model *)

Definition bytes := list byte.

(** Pointers handed out by the backend.  [NULL] is [self._backend._ffi.NULL]. *)
Definition EVP_PKEY := N.
Definition BIO := N.
Definition NULL : N := 0%N.

(** [_X25519_KEY_SIZE = 32] *)
Definition _X25519_KEY_SIZE : nat := 32.

(** Modelled from the spec: the enumerations of
    [cryptography.hazmat.primitives.serialization] are not part of the
    analysed source, which only names their [Raw] members and the class
    [NoEncryption].  The other members are those the specification lists
    (section 6): structured encodings PEM and DER, the public format
    SubjectPublicKeyInfo, the private formats PKCS8 and the legacy one,
    and password based encryption. *)
Inductive Encoding : Type :=
| Encoding_Raw
| Encoding_PEM
| Encoding_DER.

Inductive PublicFormat : Type :=
| PublicFormat_Raw
| PublicFormat_SubjectPublicKeyInfo.

Inductive PrivateFormat : Type :=
| PrivateFormat_Raw
| PrivateFormat_PKCS8
| PrivateFormat_TraditionalOpenSSL.

Inductive KeySerializationEncryption : Type :=
| NoEncryption
| BestAvailableEncryption (password : bytes).

(** [encoding is serialization.Encoding.Raw] and its siblings. *)
Definition is_Encoding_Raw (e : Encoding) : bool :=
  match e with Encoding_Raw => true | _ => false end.

Definition is_PublicFormat_Raw (f : PublicFormat) : bool :=
  match f with PublicFormat_Raw => true | _ => false end.

Definition is_PrivateFormat_Raw (f : PrivateFormat) : bool :=
  match f with PrivateFormat_Raw => true | _ => false end.

(** [isinstance(encryption_algorithm, serialization.NoEncryption)] *)
Definition isinstance_NoEncryption (a : KeySerializationEncryption) : bool :=
  match a with NoEncryption => true | _ => false end.

(** The two classes.  Each instance stores the backend (the ambient
    provider of this development) and one key handle, nothing else. *)
Record _X25519PublicKey : Type := new_X25519PublicKey
  { pub_evp_pkey : EVP_PKEY }.

Record _X25519PrivateKey : Type := new_X25519PrivateKey
  { priv_evp_pkey : EVP_PKEY }.

(** The values a caller may pass where a peer public key is expected:
    Python does not type check the argument of [exchange]. *)
Inductive pyobj : Type :=
| PyNone
| PyInt (z : Z)
| PyStr (s : string)
| PyBytes (b : bytes)
| PyPublicKey (k : _X25519PublicKey)
| PyPrivateKey (k : _X25519PrivateKey).

(** [isinstance(peer_public_key, X25519PublicKey)] *)
Definition isinstance_X25519PublicKey (o : pyobj) : option _X25519PublicKey :=
  match o with PyPublicKey k => Some k | _ => None end.

(** Exceptions.  [ValueError] is what the specification calls
    InvalidInputCombination, [TypeError] its TypeMismatch and
    [InternalError] the fatal assertion of [openssl_assert];
    [ProviderError] stands for any exception coming out of a backend
    call. *)
Inductive exn : Type :=
| ValueError (msg : string)
| TypeError (msg : string)
| InternalError
| ProviderError (msg : string).

(** ** Backend calls *)

(** One constructor for each backend entry point the methods reach.  The
    last two are the provider operations of section 6 of the
    specification that are reached through code outside the analysed
    file: the derive operation and the loading of a raw private key. *)
Inductive call : Type :=
| _create_mem_bio_gc
| i2d_PUBKEY_bio (bio : BIO) (pkey : EVP_PKEY)
| d2i_PUBKEY_bio (bio : BIO) (x : EVP_PKEY)
| EVP_PKEY_get_raw_public_key (pkey : EVP_PKEY) (buf : bytes) (buflen : Z)
| EVP_PKEY_get_raw_private_key (pkey : EVP_PKEY) (buf : bytes) (buflen : Z)
| _public_key_bytes (encoding : Encoding) (format : PublicFormat)
    (key : _X25519PublicKey) (evp_pkey : EVP_PKEY) (cdata : option N)
| _private_key_bytes (encoding : Encoding) (format : PrivateFormat)
    (encryption_algorithm : KeySerializationEncryption)
    (key : _X25519PrivateKey) (evp_pkey : EVP_PKEY) (cdata : option N)
| ecdh_derive (private_handle : EVP_PKEY) (public_handle : EVP_PKEY)
| load_raw_private (data : bytes).

(** What each call hands back.  The two raw exports return the status
    [res], the bytes the library stored at the start of [buf] and the
    value it left in [buflen[0]]. *)
Definition resp (c : call) : Type :=
  match c with
  | _create_mem_bio_gc => BIO
  | i2d_PUBKEY_bio _ _ => Z
  | d2i_PUBKEY_bio _ _ => EVP_PKEY
  | EVP_PKEY_get_raw_public_key _ _ _ => (Z * bytes * Z)%type
  | EVP_PKEY_get_raw_private_key _ _ _ => (Z * bytes * Z)%type
  | _public_key_bytes _ _ _ _ _ => bytes
  | _private_key_bytes _ _ _ _ _ _ => bytes
  | ecdh_derive _ _ => bytes
  | load_raw_private _ => EVP_PKEY
  end.

(** ** Programs *)

Inductive prog (A : Type) : Type :=
| Ret (a : A)
| Raise (e : exn)
| Call (c : call) (k : resp c -> prog A).

Arguments Raise {A} e.

Fixpoint bind {A B : Type} (p : prog A) (f : A -> prog B) : prog B :=
  match p with
  | Ret a => f a
  | Raise e => Raise e
  | Call c k => Call c (fun r => bind (k r) f)
  end.

(** A single backend call, returning its answer. *)
Definition invoke (c : call) : prog (resp c) := Call c (fun r => Ret r).

Declare Scope prog_scope.
Delimit Scope prog_scope with prog.
Notation "x <- p ;; q" := (bind p (fun x => q))
  (at level 61, p at next level, right associativity) : prog_scope.
Notation "p ;; q" := (bind p (fun _ => q))
  (at level 61, right associativity) : prog_scope.
Open Scope prog_scope.

(** The first backend call of a program, if it starts with one. *)
Definition first_call {A : Type} (p : prog A) : option call :=
  match p with Call c _ => Some c | _ => None end.

(** [may_raise p e]: some leaf of [p] is the exception [e], that is, the
    method itself raises [e] for some answers of the backend. *)
Fixpoint may_raise {A : Type} (p : prog A) (e : exn) : Prop :=
  match p with
  | Ret _ => False
  | Raise e' => e' = e
  | Call c k => exists r, may_raise (k r) e
  end.

(** ** cffi buffers *)

(** [ffi.new("unsigned char []", n)]: [n] zero bytes. *)
Definition ffi_new_uchar_array (n : nat) : bytes := repeat x00 n.

(** [ffi.new("size_t *", n)]: one cell holding [n]. *)
Definition ffi_new_size_t (n : nat) : Z := Z.of_nat n.

(** The content of the array [buf] after the library stored [written] at
    its start.  The array keeps its size: a store cannot grow it. *)
Definition stored (buf written : bytes) : bytes :=
  firstn (List.length buf) written ++ skipn (List.length written) buf.

(** [ffi.buffer(buf, n)[:]] *)
Definition ffi_buffer (buf : bytes) (n : nat) : bytes := firstn n buf.

(** [ffi.gc(ptr, destructor)] hands back the same pointer, now owned. *)
Definition ffi_gc (ptr : N) : N := ptr.

(** Modelled from the spec: [Backend.openssl_assert] is not part of the
    analysed source; the specification describes it as a fatal internal
    error, distinct from the errors meant for the caller. *)
Definition openssl_assert (ok : bool) : prog unit :=
  if ok then Ret tt else Raise InternalError.

(** ** [_X25519PublicKey] *)

Definition _raw_public_bytes (self : _X25519PublicKey) : prog bytes :=
  let buf := ffi_new_uchar_array _X25519_KEY_SIZE in
  let buflen := ffi_new_size_t _X25519_KEY_SIZE in
  r <- invoke (EVP_PKEY_get_raw_public_key (pub_evp_pkey self) buf buflen) ;;
  let '(res, written, buflen') := r in
  openssl_assert (res =? 1) ;;
  openssl_assert (buflen' =? Z.of_nat _X25519_KEY_SIZE) ;;
  Ret (ffi_buffer (stored buf written) _X25519_KEY_SIZE).

Definition public_bytes (self : _X25519PublicKey)
    (encoding : Encoding) (format : PublicFormat) : prog bytes :=
  if is_Encoding_Raw encoding || is_PublicFormat_Raw format then
    if negb (is_Encoding_Raw encoding) || negb (is_PublicFormat_Raw format)
    then Raise (ValueError "When using Raw both encoding and format must be Raw")
    else _raw_public_bytes self
  else
    invoke (_public_key_bytes encoding format self (pub_evp_pkey self) None).

(** ** [_X25519PrivateKey] *)

Definition public_key (self : _X25519PrivateKey) : prog _X25519PublicKey :=
  bio <- invoke _create_mem_bio_gc ;;
  res <- invoke (i2d_PUBKEY_bio bio (priv_evp_pkey self)) ;;
  openssl_assert (res =? 1) ;;
  evp_pkey <- invoke (d2i_PUBKEY_bio bio NULL) ;;
  openssl_assert (negb (evp_pkey =? NULL)%N) ;;
  let evp_pkey := ffi_gc evp_pkey in
  Ret (new_X25519PublicKey evp_pkey).

(** Modelled from the spec: [_evp_pkey_derive] lives in
    [cryptography.hazmat.backends.openssl.utils], which is not part of
    the analysed source.  Following section 4.3 it delegates to the
    provider's derive operation on this key's handle and the peer's
    handle and hands its output back unchanged. *)
Definition _evp_pkey_derive (evp_pkey : EVP_PKEY)
    (peer_public_key : _X25519PublicKey) : prog bytes :=
  invoke (ecdh_derive evp_pkey (pub_evp_pkey peer_public_key)).

Definition exchange (self : _X25519PrivateKey) (peer_public_key : pyobj)
  : prog bytes :=
  match isinstance_X25519PublicKey peer_public_key with
  | None => Raise (TypeError "peer_public_key must be X25519PublicKey.")
  | Some peer => _evp_pkey_derive (priv_evp_pkey self) peer
  end.

Definition _raw_private_bytes (self : _X25519PrivateKey) : prog bytes :=
  let buf := ffi_new_uchar_array _X25519_KEY_SIZE in
  let buflen := ffi_new_size_t _X25519_KEY_SIZE in
  r <- invoke (EVP_PKEY_get_raw_private_key (priv_evp_pkey self) buf buflen) ;;
  let '(res, written, buflen') := r in
  openssl_assert (res =? 1) ;;
  openssl_assert (buflen' =? Z.of_nat _X25519_KEY_SIZE) ;;
  Ret (ffi_buffer (stored buf written) _X25519_KEY_SIZE).

Definition private_bytes (self : _X25519PrivateKey)
    (encoding : Encoding) (format : PrivateFormat)
    (encryption_algorithm : KeySerializationEncryption) : prog bytes :=
  if is_Encoding_Raw encoding || is_PrivateFormat_Raw format then
    if negb (is_PrivateFormat_Raw format)
       || negb (is_Encoding_Raw encoding)
       || negb (isinstance_NoEncryption encryption_algorithm)
    then Raise (ValueError
      "When using Raw both encoding and format must be Raw and encryption_algorithm must be NoEncryption()")
    else _raw_private_bytes self
  else
    invoke (_private_key_bytes encoding format encryption_algorithm
              self (priv_evp_pkey self) None).

(** Modelled from the spec: building a private key from raw bytes is done
    by the backend ([x25519_load_private_bytes]), which is not part of
    the analysed source.  Following section 3 the provider decodes the
    bytes into a key handle, which is wrapped as a private key. *)
Definition from_private_bytes (data : bytes) : prog _X25519PrivateKey :=
  evp_pkey <- invoke (load_raw_private data) ;;
  Ret (new_X25519PrivateKey evp_pkey).

(** ** Running a program against a provider *)

Inductive outcome (A : Type) : Type :=
| Returned (a : A)
| Raised (e : exn).

Arguments Raised {A} e.

(** A provider answers a call in a state of its own with a value or an
    exception, and moves to a new state. *)
Definition provider (St : Type) : Type :=
  forall c : call, St -> (resp c + exn) * St.

(** The outcome of a program, the provider state it ends in and the calls
    it issued, first call first.  An exception of the provider propagates
    through the method, as in Python. *)
Fixpoint run {St A : Type} (h : provider St) (p : prog A) (s : St)
  : outcome A * St * list call :=
  match p with
  | Ret a => (Returned a, s, [])
  | Raise e => (Raised e, s, [])
  | Call c k =>
      match h c s with
      | (inl r, s') => let '(o, s'', t) := run h (k r) s' in (o, s'', c :: t)
      | (inr e, s') => (Raised e, s', [c])
      end
  end.

(** ** The contract of a provider *)

(** The analysed file relies on OpenSSL for every computation on key
    material.  What the properties of section 8 of the specification need
    from it is collected here, over three observations of a provider
    state: the public and the private material behind a live key handle,
    and the public keys queued in a memory BIO. *)
Section Contract.

Variable St : Type.
Variable h : provider St.
Variable key_pub key_priv : St -> EVP_PKEY -> option bytes.
Variable bio_keys : St -> BIO -> option (list bytes).
Variable X25519 : bytes -> bytes -> bytes.
Variable basepoint : bytes.

Record provider_contract : Prop := {
  (* key material is 32 bytes long *)
  pc_pub_len : forall s x P,
    key_pub s x = Some P -> List.length P = _X25519_KEY_SIZE;
  pc_priv_len : forall s x d,
    key_priv s x = Some d -> List.length d = _X25519_KEY_SIZE;
  (* no call changes the material behind a live handle *)
  pc_frame_pub : forall c s r s' x P,
    h c s = (r, s') -> key_pub s x = Some P -> key_pub s' x = Some P;
  pc_frame_priv : forall c s r s' x d,
    h c s = (r, s') -> key_priv s x = Some d -> key_priv s' x = Some d;
  (* a new memory BIO is empty *)
  pc_create_mem_bio : forall s, exists bio s',
    h _create_mem_bio_gc s = (inl bio, s') /\ bio_keys s' bio = Some [];
  (* i2d_PUBKEY_bio queues the public part of a live key *)
  pc_i2d_PUBKEY_bio : forall s bio x P q,
    key_pub s x = Some P -> bio_keys s bio = Some q ->
    exists s', h (i2d_PUBKEY_bio bio x) s = (inl 1, s')
               /\ bio_keys s' bio = Some (q ++ [P]);
  (* d2i_PUBKEY_bio turns the first queued key into a new key object *)
  pc_d2i_PUBKEY_bio : forall s bio a P q,
    bio_keys s bio = Some (P :: q) ->
    exists y s', h (d2i_PUBKEY_bio bio a) s = (inl y, s')
                 /\ y <> NULL /\ key_pub s' y = Some P;
  (* the raw exports store the material and report its length *)
  pc_get_raw_public_key : forall s x P buf,
    key_pub s x = Some P -> List.length buf = _X25519_KEY_SIZE ->
    exists s', h (EVP_PKEY_get_raw_public_key x buf 32) s
               = (inl (1, P, 32), s');
  pc_get_raw_private_key : forall s x d buf,
    key_priv s x = Some d -> List.length buf = _X25519_KEY_SIZE ->
    exists s', h (EVP_PKEY_get_raw_private_key x buf 32) s
               = (inl (1, d, 32), s');
  (* derive is the X25519 function on the two pieces of material *)
  pc_ecdh_derive : forall s a y d P,
    key_priv s a = Some d -> key_pub s y = Some P ->
    exists s', h (ecdh_derive a y) s = (inl (X25519 d P), s');
  (* loading 32 raw bytes gives a key pair for that scalar *)
  pc_load_raw_private : forall s d,
    List.length d = _X25519_KEY_SIZE ->
    exists x s', h (load_raw_private d) s = (inl x, s')
                 /\ key_priv s' x = Some d
                 /\ key_pub s' x = Some (X25519 d basepoint)
}.

(** [sk] is a valid private key for the scalar [d]. *)
Definition valid_private (s : St) (sk : _X25519PrivateKey) (d : bytes) : Prop :=
  key_priv s (priv_evp_pkey sk) = Some d
  /\ key_pub s (priv_evp_pkey sk) = Some (X25519 d basepoint).

(** [(sk, pk)] is a valid key pair for the scalar [d]. *)
Definition valid_pair (s : St) (sk : _X25519PrivateKey)
    (pk : _X25519PublicKey) (d : bytes) : Prop :=
  key_priv s (priv_evp_pkey sk) = Some d
  /\ key_pub s (pub_evp_pkey pk) = Some (X25519 d basepoint).

End Contract.

(** ** A reference provider *)

(** A provider that meets the contract, used to run the methods on
    concrete keys.  Its derive operation is the X25519 function of
    RFC 7748, section 5, computed on machine-word integers. *)
Module RFC7748.

Definition p : Z := 2 ^ 255 - 19.
Definition a24 : Z := 121665.

Fixpoint decodeLittleEndian (b : bytes) : Z :=
  match b with
  | [] => 0
  | x :: r => Z.of_N (Byte.to_N x) + 256 * decodeLittleEndian r
  end.

Definition byte_of_Z (z : Z) : byte :=
  match Byte.of_N (Z.to_N (z mod 256)) with
  | Some b => b
  | None => x00
  end.

Fixpoint encodeLittleEndian (n : nat) (z : Z) : bytes :=
  match n with
  | O => []
  | S n' => byte_of_Z z :: encodeLittleEndian n' (z / 256)
  end.

(** The most significant bit of the last byte is masked. *)
Definition decodeUCoordinate (u : bytes) : Z :=
  Z.land (decodeLittleEndian u) (2 ^ 255 - 1).

(** Clamping: clear the three lowest bits and bit 255, set bit 254. *)
Definition decodeScalar25519 (k : bytes) : Z :=
  Z.lor (Z.land (decodeLittleEndian k) (2 ^ 255 - 8)) (2 ^ 254).

Definition P : bigZ := BigZ.of_Z p.
Definition fadd (a b : bigZ) : bigZ := BigZ.modulo (BigZ.add a b) P.
Definition fsub (a b : bigZ) : bigZ := BigZ.modulo (BigZ.sub a b) P.
Definition fmul (a b : bigZ) : bigZ := BigZ.modulo (BigZ.mul a b) P.

(** [b ^ e] in the field, by squaring, for an exponent below [2 ^ fuel]. *)
Fixpoint fpow (fuel : nat) (b : bigZ) (e : Z) : bigZ :=
  match fuel with
  | O => BigZ.one
  | S f =>
      let r := fpow f b (e / 2) in
      let r2 := fmul r r in
      if Z.odd e then fmul r2 b else r2
  end.

Definition cswap (swap : bool) (a b : bigZ) : bigZ * bigZ :=
  if swap then (b, a) else (a, b).

(** The Montgomery ladder, from bit [t - 1] of [k] down to bit 0. *)
Fixpoint ladder (t : nat) (k : Z) (x_1 x_2 z_2 x_3 z_3 : bigZ) (swap : bool)
  : bigZ * bigZ * bigZ * bigZ * bool :=
  match t with
  | O => (x_2, z_2, x_3, z_3, swap)
  | S t' =>
      let k_t := Z.testbit k (Z.of_nat t') in
      let swap := xorb swap k_t in
      let '(x_2, x_3) := cswap swap x_2 x_3 in
      let '(z_2, z_3) := cswap swap z_2 z_3 in
      let swap := k_t in
      let A := fadd x_2 z_2 in
      let AA := fmul A A in
      let B := fsub x_2 z_2 in
      let BB := fmul B B in
      let E := fsub AA BB in
      let C := fadd x_3 z_3 in
      let D := fsub x_3 z_3 in
      let DA := fmul D A in
      let CB := fmul C B in
      let x_3 := fmul (fadd DA CB) (fadd DA CB) in
      let z_3 := fmul x_1 (fmul (fsub DA CB) (fsub DA CB)) in
      let x_2 := fmul AA BB in
      let z_2 := fmul E (fadd AA (fmul (BigZ.of_Z a24) E)) in
      ladder t' k x_1 x_2 z_2 x_3 z_3 swap
  end.

Definition X25519 (k u : bytes) : bytes :=
  let x_1 := BigZ.modulo (BigZ.of_Z (decodeUCoordinate u)) P in
  let '(x_2, z_2, x_3, z_3, swap) :=
    ladder 255 (decodeScalar25519 k) x_1 BigZ.one BigZ.zero x_1 BigZ.one false in
  let '(x_2, x_3) := cswap swap x_2 x_3 in
  let '(z_2, z_3) := cswap swap z_2 z_3 in
  encodeLittleEndian 32 (BigZ.to_Z (fmul x_2 (fpow 255 z_2 (p - 2)))).

(** The u-coordinate 9 of the base point. *)
Definition basepoint : bytes := encodeLittleEndian 32 9.

End RFC7748.

Arguments RFC7748.X25519 : simpl never.

(** Bytes from their hexadecimal notation (lower case digits). *)
Definition hexval (a : Ascii.ascii) : Z :=
  let n := Z.of_N (Ascii.N_of_ascii a) in
  if (48 <=? n) && (n <=? 57) then n - 48 else n - 87.

Fixpoint unhex (s : string) : bytes :=
  match s with
  | String a (String b r) =>
      RFC7748.byte_of_Z (16 * hexval a + hexval b) :: unhex r
  | _ => []
  end.

Fixpoint bytes_eqb (a b : bytes) : bool :=
  match a, b with
  | [], [] => true
  | x :: a', y :: b' => Byte.eqb x y && bytes_eqb a' b'
  | _, _ => false
  end.

Module Ref.

(** A key object: the public point and, for a private key, the scalar. *)
Record keymat : Type := { km_priv : option bytes; km_pub : bytes }.

(** The provider state: the key objects and the memory BIOs allocated
    so far.  The handle of an object is its position, counted from 1,
    so that no handle is [NULL] and handles are never reused. *)
Record state : Type := { keys : list keymat; bios : list (list bytes) }.

Definition init : state := {| keys := []; bios := [] |}.

Definition at_handle {A : Type} (l : list A) (x : N) : option A :=
  match x with
  | N0 => None
  | Npos q => nth_error l (Nat.pred (Pos.to_nat q))
  end.

Definition next_handle {A : Type} (l : list A) : N :=
  N.of_nat (S (List.length l)).

Fixpoint set_nth {A : Type} (l : list A) (n : nat) (v : A) : list A :=
  match l, n with
  | [], _ => []
  | _ :: r, O => v :: r
  | a :: r, S n' => a :: set_nth r n' v
  end.

Definition set_handle {A : Type} (l : list A) (x : N) (v : A) : list A :=
  match x with
  | N0 => l
  | Npos q => set_nth l (Nat.pred (Pos.to_nat q)) v
  end.

(** DER of a SubjectPublicKeyInfo holding an X25519 point: a fixed
    header of 12 bytes, then the point. *)
Definition spki_header : bytes := unhex "302a300506032b656e032100".

Definition spki (P : bytes) : bytes := spki_header ++ P.

Definition unspki (blob : bytes) : option bytes :=
  let P := skipn 12 blob in
  if bytes_eqb (firstn 12 blob) spki_header
     && (List.length P =? _X25519_KEY_SIZE)%nat
  then Some P else None.

(** DER of an unencrypted PKCS8 structure holding an X25519 scalar. *)
Definition pkcs8_header : bytes := unhex "302e020100300506032b656e04220420".

Fixpoint unspki_all (blobs : list bytes) : option (list bytes) :=
  match blobs with
  | [] => Some []
  | b :: r =>
      match unspki b, unspki_all r with
      | Some P, Some q => Some (P :: q)
      | _, _ => None
      end
  end.

Definition has_key_size (b : bytes) : bool :=
  (List.length b =? _X25519_KEY_SIZE)%nat.

(** The three observations of the contract. *)
Definition key_pub (s : state) (x : EVP_PKEY) : option bytes :=
  match at_handle (keys s) x with
  | Some km => if has_key_size (km_pub km) then Some (km_pub km) else None
  | None => None
  end.

Definition key_priv (s : state) (x : EVP_PKEY) : option bytes :=
  match at_handle (keys s) x with
  | Some km =>
      match km_priv km with
      | Some d => if has_key_size d then Some d else None
      | None => None
      end
  | None => None
  end.

Definition bio_keys (s : state) (b : BIO) : option (list bytes) :=
  match at_handle (bios s) b with
  | Some blobs => unspki_all blobs
  | None => None
  end.

Definition handler : provider state := fun c =>
  match c return state -> (resp c + exn) * state with
  | _create_mem_bio_gc => fun s =>
      (inl (next_handle (bios s)),
       {| keys := keys s; bios := bios s ++ [[]] |})
  | i2d_PUBKEY_bio bio pkey => fun s =>
      match key_pub s pkey, at_handle (bios s) bio with
      | Some P, Some blobs =>
          (inl 1, {| keys := keys s;
                     bios := set_handle (bios s) bio (blobs ++ [spki P]) |})
      | _, _ => (inl 0, s)
      end
  | d2i_PUBKEY_bio bio _ => fun s =>
      match at_handle (bios s) bio with
      | Some (blob :: blobs) =>
          match unspki blob with
          | Some P =>
              (inl (next_handle (keys s)),
               {| keys := keys s ++ [{| km_priv := None; km_pub := P |}];
                  bios := set_handle (bios s) bio blobs |})
          | None => (inl NULL, s)
          end
      | _ => (inl NULL, s)
      end
  | EVP_PKEY_get_raw_public_key pkey buf buflen => fun s =>
      match key_pub s pkey with
      | Some P =>
          if buflen <? 32 then (inl (0, [], buflen), s)
          else (inl (1, P, 32), s)
      | None => (inl (0, [], buflen), s)
      end
  | EVP_PKEY_get_raw_private_key pkey buf buflen => fun s =>
      match key_priv s pkey with
      | Some d =>
          if buflen <? 32 then (inl (0, [], buflen), s)
          else (inl (1, d, 32), s)
      | None => (inl (0, [], buflen), s)
      end
  | _public_key_bytes encoding format key evp_pkey cdata => fun s =>
      match encoding, format, key_pub s evp_pkey with
      | Encoding_DER, PublicFormat_SubjectPublicKeyInfo, Some P =>
          (inl (spki P), s)
      | _, _, _ => (inr (ProviderError "unsupported serialization"), s)
      end
  | _private_key_bytes encoding format alg key evp_pkey cdata => fun s =>
      match encoding, format, alg, key_priv s evp_pkey with
      | Encoding_DER, PrivateFormat_PKCS8, NoEncryption, Some d =>
          (inl (pkcs8_header ++ d), s)
      | _, _, _, _ => (inr (ProviderError "unsupported serialization"), s)
      end
  | ecdh_derive a y => fun s =>
      match key_priv s a, key_pub s y with
      | Some d, Some P => (inl (RFC7748.X25519 d P), s)
      | _, _ => (inr (ProviderError "derive failed"), s)
      end
  | load_raw_private d => fun s =>
      if has_key_size d then
        (inl (next_handle (keys s)),
         {| keys := keys s ++ [{| km_priv := Some d;
                                  km_pub := RFC7748.X25519 d RFC7748.basepoint |}];
            bios := bios s |})
      else (inr (ValueError "An X25519 private key is 32 bytes long"), s)
  end.

(** The key pairs of RFC 7748, section 6.1. *)
Definition alice : bytes :=
  unhex "77076d0a7318a57d3c16c17251b26645df4c2f87ebc0992ab177fba51db92c2a".
Definition alice_pub : bytes :=
  unhex "8520f0098930a754748b7ddcb43ef75a0dbf3a0d26381af4eba4a98eaa9b4e6a".
Definition bob : bytes :=
  unhex "5dab087e624a8a4b79e17f8b83800ee66f3bb1292618b6fd1c2f8b27ff88e0eb".
Definition bob_pub : bytes :=
  unhex "de9edb7d7b7dc1b4d35b61c2ece435373f8343c85b78674dadfc7e146f882b4f".
Definition shared : bytes :=
  unhex "4a5d9d5ba4ce2de1728e3bf480350f25e07e21c947d19e3376f09b3c1e161742".

(** A state holding both private keys (handles 1 and 2) and both public
    keys (handles 3 and 4). *)
Definition session : state :=
  {| keys := [ {| km_priv := Some alice; km_pub := alice_pub |};
               {| km_priv := Some bob; km_pub := bob_pub |};
               {| km_priv := None; km_pub := alice_pub |};
               {| km_priv := None; km_pub := bob_pub |} ];
     bios := [] |}.

End Ref.

(** Case analysis on an equation [Ref.handler c s = (r, s')]. *)
Ltac handler_cases E :=
  repeat match type of E with
         | context [match ?t with _ => _ end] => destruct t eqn:?
         end;
  inversion E; subst; clear E.

(** ** A provider with a Diffie-Hellman law proved for every input *)

(** The reference provider again, with another scalar multiplication
    behind its derive operation: the multiplicative group of the integers
    modulo [2 ^ 255 - 19], where the multiple [n] of the point [u] is the
    power [u ^ n].  Scalars and points are encoded as in RFC 7748.  That
    multiplying twice is multiplying by the product is proved of this
    function for all scalars and points. *)
Module FFDH.

Definition p : Z := 2 ^ 255 - 19.

(** [u ^ e] modulo [p], by squaring. *)
Fixpoint power_pos (u : Z) (e : positive) : Z :=
  match e with
  | xH => u mod p
  | xO e' => let r := power_pos u e' in (r * r) mod p
  | xI e' => let r := power_pos u e' in (((r * r) mod p) * u) mod p
  end.

Definition power (u : Z) (n : N) : Z :=
  match n with
  | N0 => 1 mod p
  | Npos e => power_pos u e
  end.

(** The clamped scalar of a private key. *)
Definition scalar (k : bytes) : N := Z.to_N (RFC7748.decodeScalar25519 k).

(** The multiple [n] of the encoded point [P], encoded. *)
Definition smul (n : N) (P : bytes) : bytes :=
  RFC7748.encodeLittleEndian 32 (power (RFC7748.decodeUCoordinate P) n).

Definition derive (k u : bytes) : bytes := smul (scalar k) u.

(** [Ref.handler] with [derive] in the place of the X25519 function, in
    the only two calls that compute with key material. *)
Definition handler : provider Ref.state := fun c =>
  match c return Ref.state -> (resp c + exn) * Ref.state with
  | ecdh_derive a y => fun s =>
      match Ref.key_priv s a, Ref.key_pub s y with
      | Some d, Some P => (inl (derive d P), s)
      | _, _ => (inr (ProviderError "derive failed"), s)
      end
  | load_raw_private d => fun s =>
      if Ref.has_key_size d then
        (inl (Ref.next_handle (Ref.keys s)),
         {| Ref.keys :=
              Ref.keys s ++ [{| Ref.km_priv := Some d;
                                Ref.km_pub := derive d RFC7748.basepoint |}];
            Ref.bios := Ref.bios s |})
      else (inr (ValueError "An X25519 private key is 32 bytes long"), s)
  | c' => Ref.handler c'
  end.

(** A state holding two private keys (handles 1 and 2) and their public
    keys (handles 3 and 4). *)
Definition session : Ref.state :=
  {| Ref.keys :=
       [ {| Ref.km_priv := Some Ref.alice;
            Ref.km_pub := derive Ref.alice RFC7748.basepoint |};
         {| Ref.km_priv := Some Ref.bob;
            Ref.km_pub := derive Ref.bob RFC7748.basepoint |};
         {| Ref.km_priv := None;
            Ref.km_pub := derive Ref.alice RFC7748.basepoint |};
         {| Ref.km_priv := None;
            Ref.km_pub := derive Ref.bob RFC7748.basepoint |} ];
     Ref.bios := [] |}.

End FFDH.

Arguments FFDH.power : simpl never.

(** ** Observations on runs *)

(** The provider [h] answers some call, in some state, by raising [e]. *)
Definition provider_raised {St : Type} (h : provider St) (e : exn) : Prop :=
  exists c s s', h c s = (inr e, s').

(** The calls that make the backend hand out private key material: the
    raw private export and the structured private serialization. *)
Definition exports_private_key (c : call) : bool :=
  match c with
  | EVP_PKEY_get_raw_private_key _ _ _ => true
  | _private_key_bytes _ _ _ _ _ _ => true
  | _ => false
  end.

(** A key agreement between the holders of two private keys, written
    with the methods of the two classes: each side derives its public
    key, then each side exchanges with the public key of the other. *)
Definition key_agreement (a b : _X25519PrivateKey) : prog (bytes * bytes) :=
  a_pub <- public_key a ;;
  b_pub <- public_key b ;;
  k1 <- exchange a (PyPublicKey b_pub) ;;
  k2 <- exchange b (PyPublicKey a_pub) ;;
  Ret (k1, k2).

(** * Properties *)

Unset Implicit Arguments.

(** ** Programs and runs *)

(** Equal programs start with the same call. *)
Lemma first_call_eq (A : Type) (p q : prog A) :
  p = q -> first_call p = first_call q.
Proof. intros ->. reflexivity. Qed.

(** ** cffi buffers *)

Lemma stored_length (buf written : bytes) :
  List.length (stored buf written) = List.length buf.
Proof.
  unfold stored. rewrite length_app, length_firstn, length_skipn. lia.
Qed.

(** A store of exactly the array's size replaces its content. *)
Lemma stored_full (buf written : bytes) :
  List.length written = List.length buf -> stored buf written = written.
Proof.
  intros E. unfold stored.
  rewrite <- E, firstn_all, skipn_all2 by lia. apply app_nil_r.
Qed.

Lemma ffi_buffer_stored_length (written : bytes) :
  List.length
    (ffi_buffer (stored (ffi_new_uchar_array _X25519_KEY_SIZE) written)
       _X25519_KEY_SIZE) = 32%nat.
Proof.
  unfold ffi_buffer. rewrite length_firstn, stored_length.
  unfold ffi_new_uchar_array. rewrite repeat_length. reflexivity.
Qed.

Lemma ffi_buffer_stored_full (written : bytes) :
  List.length written = _X25519_KEY_SIZE ->
  ffi_buffer (stored (ffi_new_uchar_array _X25519_KEY_SIZE) written)
    _X25519_KEY_SIZE = written.
Proof.
  intros E. rewrite stored_full.
  - unfold ffi_buffer. rewrite <- E. apply firstn_all.
  - unfold ffi_new_uchar_array. rewrite repeat_length. exact E.
Qed.

(** ** The raw export paths *)

Section RawExport.

Variable St : Type.
Variable h : provider St.

(** What a run of [_raw_public_bytes] does, by the answer of the
    provider to its single call. *)
Lemma run_raw_public_bytes (pk : _X25519PublicKey) (s : St) :
  let c := EVP_PKEY_get_raw_public_key (pub_evp_pkey pk)
             (ffi_new_uchar_array _X25519_KEY_SIZE) 32 in
  run h (_raw_public_bytes pk) s =
  match h c s with
  | (inl (res, written, buflen), s') =>
      (if (res =? 1) && (buflen =? 32)
       then Returned (ffi_buffer
                        (stored (ffi_new_uchar_array _X25519_KEY_SIZE) written)
                        _X25519_KEY_SIZE)
       else Raised InternalError, s', [c])
  | (inr e, s') => (Raised e, s', [c])
  end.
Proof.
  unfold _raw_public_bytes. cbn.
  destruct (h _ s) as [[[[res written] buflen] | e] s']; trivial.
  destruct (res =? 1); cbn; trivial.
  destruct (buflen =? 32); reflexivity.
Qed.

Lemma run_raw_private_bytes (sk : _X25519PrivateKey) (s : St) :
  let c := EVP_PKEY_get_raw_private_key (priv_evp_pkey sk)
             (ffi_new_uchar_array _X25519_KEY_SIZE) 32 in
  run h (_raw_private_bytes sk) s =
  match h c s with
  | (inl (res, written, buflen), s') =>
      (if (res =? 1) && (buflen =? 32)
       then Returned (ffi_buffer
                        (stored (ffi_new_uchar_array _X25519_KEY_SIZE) written)
                        _X25519_KEY_SIZE)
       else Raised InternalError, s', [c])
  | (inr e, s') => (Raised e, s', [c])
  end.
Proof.
  unfold _raw_private_bytes. cbn.
  destruct (h _ s) as [[[[res written] buflen] | e] s']; trivial.
  destruct (res =? 1); cbn; trivial.
  destruct (buflen =? 32); reflexivity.
Qed.

Lemma raw_public_bytes_returned_length pk s b s' t :
  run h (_raw_public_bytes pk) s = (Returned b, s', t) ->
  List.length b = 32%nat.
Proof.
  rewrite run_raw_public_bytes. cbv zeta.
  destruct (h _ s) as [[[[res written] buflen] | e] s0]; [| discriminate].
  destruct ((res =? 1) && (buflen =? 32)); [| discriminate].
  intros E. injection E as <- _ _. apply ffi_buffer_stored_length.
Qed.

Lemma raw_private_bytes_returned_length sk s b s' t :
  run h (_raw_private_bytes sk) s = (Returned b, s', t) ->
  List.length b = 32%nat.
Proof.
  rewrite run_raw_private_bytes. cbv zeta.
  destruct (h _ s) as [[[[res written] buflen] | e] s0]; [| discriminate].
  destruct ((res =? 1) && (buflen =? 32)); [| discriminate].
  intros E. injection E as <- _ _. apply ffi_buffer_stored_length.
Qed.

Lemma raw_public_bytes_asserts pk s res written buflen s' :
  h (EVP_PKEY_get_raw_public_key (pub_evp_pkey pk)
       (ffi_new_uchar_array _X25519_KEY_SIZE) 32) s
  = (inl (res, written, buflen), s') ->
  res <> 1 \/ buflen <> 32 ->
  fst (fst (run h (_raw_public_bytes pk) s)) = Raised InternalError.
Proof.
  intros E Hbad. rewrite run_raw_public_bytes. cbv zeta. rewrite E.
  destruct Hbad as [Hbad | Hbad]; apply Z.eqb_neq in Hbad; rewrite Hbad;
    [| rewrite andb_false_r]; reflexivity.
Qed.

Lemma raw_private_bytes_asserts sk s res written buflen s' :
  h (EVP_PKEY_get_raw_private_key (priv_evp_pkey sk)
       (ffi_new_uchar_array _X25519_KEY_SIZE) 32) s
  = (inl (res, written, buflen), s') ->
  res <> 1 \/ buflen <> 32 ->
  fst (fst (run h (_raw_private_bytes sk) s)) = Raised InternalError.
Proof.
  intros E Hbad. rewrite run_raw_private_bytes. cbv zeta. rewrite E.
  destruct Hbad as [Hbad | Hbad]; apply Z.eqb_neq in Hbad; rewrite Hbad;
    [| rewrite andb_false_r]; reflexivity.
Qed.

End RawExport.

(** ** Argument validation *)

(** C1: for every public key and every pair of encoding and format of
    which exactly one is Raw, [public_bytes] is the bare
    [raise ValueError("When using Raw both encoding and format must be
    Raw")]: against any provider and in any state it raises that error,
    leaves the provider untouched and issues no call.  The method is the
    raw export [_raw_public_bytes] exactly for the pair (Raw, Raw). *)
Theorem public_bytes_raw_exclusive (St : Type) (h : provider St)
    (self : _X25519PublicKey) (encoding : Encoding) (format : PublicFormat)
    (s : St) :
  ((encoding = Encoding_Raw /\ format <> PublicFormat_Raw)
   \/ (encoding <> Encoding_Raw /\ format = PublicFormat_Raw) ->
   public_bytes self encoding format
   = Raise (ValueError "When using Raw both encoding and format must be Raw")
   /\ run h (public_bytes self encoding format) s
      = (Raised (ValueError "When using Raw both encoding and format must be Raw"),
         s, []))
  /\ (public_bytes self encoding format = _raw_public_bytes self
      <-> encoding = Encoding_Raw /\ format = PublicFormat_Raw).
Proof.
  split.
  - intros [[-> Hf] | [He ->]].
    + destruct format; [contradiction | split; reflexivity].
    + destruct encoding; [contradiction | split; reflexivity ..].
  - split.
    + intros E. apply first_call_eq in E.
      destruct encoding, format; (split; [reflexivity | reflexivity])
      || discriminate E.
    + intros [-> ->]. reflexivity.
Qed.

Lemma public_bytes_raw_exclusive_witness :
  run Ref.handler
    (public_bytes (new_X25519PublicKey 3%N) Encoding_Raw
       PublicFormat_SubjectPublicKeyInfo) Ref.session
  = (Raised (ValueError "When using Raw both encoding and format must be Raw"),
     Ref.session, []).
Proof.
  destruct (public_bytes_raw_exclusive Ref.state Ref.handler (new_X25519PublicKey 3%N)
              Encoding_Raw PublicFormat_SubjectPublicKeyInfo Ref.session)
    as [H _].
  apply H. left. split; [reflexivity | discriminate].
Defined.

(** C2: for every private key and every triple in which the encoding or
    the format is Raw, [private_bytes] is the raw export
    [_raw_private_bytes] exactly when the encoding is Raw, the format is
    Raw and the encryption algorithm is a [NoEncryption], and it then
    returns whenever the provider reports status 1 and length 32; for
    every other such triple it is the bare [raise ValueError("When using
    Raw both encoding and format must be Raw and encryption_algorithm
    must be NoEncryption()")], which issues no provider call. *)
Theorem private_bytes_raw_exclusive (St : Type) (h : provider St)
    (self : _X25519PrivateKey) (encoding : Encoding) (format : PrivateFormat)
    (encryption_algorithm : KeySerializationEncryption) (s : St) :
  encoding = Encoding_Raw \/ format = PrivateFormat_Raw ->
  (private_bytes self encoding format encryption_algorithm
   = _raw_private_bytes self
   <-> encoding = Encoding_Raw /\ format = PrivateFormat_Raw
       /\ encryption_algorithm = NoEncryption)
  /\ (encoding = Encoding_Raw /\ format = PrivateFormat_Raw
      /\ encryption_algorithm = NoEncryption ->
      forall written s',
        h (EVP_PKEY_get_raw_private_key (priv_evp_pkey self)
             (ffi_new_uchar_array _X25519_KEY_SIZE) 32) s
        = (inl (1, written, 32), s') ->
        exists b,
          run h (private_bytes self encoding format encryption_algorithm) s
          = (Returned b, s',
             [EVP_PKEY_get_raw_private_key (priv_evp_pkey self)
                (ffi_new_uchar_array _X25519_KEY_SIZE) 32]))
  /\ (~ (encoding = Encoding_Raw /\ format = PrivateFormat_Raw
         /\ encryption_algorithm = NoEncryption) ->
      private_bytes self encoding format encryption_algorithm
      = Raise (ValueError
          "When using Raw both encoding and format must be Raw and encryption_algorithm must be NoEncryption()")
      /\ run h (private_bytes self encoding format encryption_algorithm) s
         = (Raised (ValueError
              "When using Raw both encoding and format must be Raw and encryption_algorithm must be NoEncryption()"),
            s, [])).
Proof.
  intros Hraw. split; [| split].
  - split.
    + intros E. apply first_call_eq in E.
      destruct encoding, format, encryption_algorithm;
        try discriminate E; try (repeat split; reflexivity);
        destruct Hraw; discriminate.
    + intros (-> & -> & ->). reflexivity.
  - intros (-> & -> & ->) written s' E.
    change (private_bytes self Encoding_Raw PrivateFormat_Raw NoEncryption)
      with (_raw_private_bytes self).
    rewrite run_raw_private_bytes. cbv zeta. rewrite E.
    eexists. reflexivity.
  - intros Hnot.
    destruct encoding, format, encryption_algorithm;
      try (split; reflexivity);
      try (destruct Hraw; discriminate).
    exfalso. apply Hnot. repeat split.
Qed.

Lemma private_bytes_raw_exclusive_witness :
  run Ref.handler
    (private_bytes (new_X25519PrivateKey 1%N) Encoding_Raw PrivateFormat_Raw
       (BestAvailableEncryption (unhex "70617373"))) Ref.session
  = (Raised (ValueError
       "When using Raw both encoding and format must be Raw and encryption_algorithm must be NoEncryption()"),
     Ref.session, []).
Proof.
  destruct (private_bytes_raw_exclusive Ref.state Ref.handler
              (new_X25519PrivateKey 1%N) Encoding_Raw PrivateFormat_Raw
              (BestAvailableEncryption (unhex "70617373")) Ref.session
              (or_introl eq_refl))
    as (_ & _ & H).
  apply H. intros (_ & _ & E). discriminate E.
Defined.

(** C10: for every private key and every encoding and format neither of
    which is Raw, [private_bytes] is the single call of the backend's
    [_private_key_bytes] with the encoding, the format and the encryption
    algorithm as given, whatever that algorithm is; no leaf of the
    program is an exception of the method itself, and a run returns the
    bytes of the backend or propagates the exception of the backend. *)
Theorem private_bytes_structured_delegates (St : Type) (h : provider St)
    (self : _X25519PrivateKey) (encoding : Encoding) (format : PrivateFormat)
    (encryption_algorithm : KeySerializationEncryption) (s : St) :
  encoding <> Encoding_Raw -> format <> PrivateFormat_Raw ->
  let c := _private_key_bytes encoding format encryption_algorithm
             self (priv_evp_pkey self) None in
  private_bytes self encoding format encryption_algorithm = invoke c
  /\ (forall e, ~ may_raise
                    (private_bytes self encoding format encryption_algorithm) e)
  /\ run h (private_bytes self encoding format encryption_algorithm) s
     = (match fst (h c s) with inl b => Returned b | inr e => Raised e end,
        snd (h c s), [c]).
Proof.
  intros He Hf c.
  assert (E : private_bytes self encoding format encryption_algorithm
              = invoke c).
  { destruct encoding, format; try contradiction; reflexivity. }
  rewrite E. split; [reflexivity | split].
  - intros e [r []].
  - unfold invoke. simpl. destruct (h c s) as [[b | e] s']; reflexivity.
Qed.

Lemma private_bytes_structured_delegates_witness :
  run Ref.handler
    (private_bytes (new_X25519PrivateKey 1%N) Encoding_DER PrivateFormat_PKCS8
       NoEncryption) Ref.session
  = (Returned (Ref.pkcs8_header ++ Ref.alice), Ref.session,
     [_private_key_bytes Encoding_DER PrivateFormat_PKCS8 NoEncryption
        (new_X25519PrivateKey 1%N) 1%N None]).
Proof.
  destruct (private_bytes_structured_delegates Ref.state Ref.handler
              (new_X25519PrivateKey 1%N) Encoding_DER PrivateFormat_PKCS8
              NoEncryption Ref.session)
    as (_ & _ & H); [discriminate | discriminate |].
  rewrite H. reflexivity.
Defined.

(** ** Key exchange *)

(** C3, as the code has it: for every private key and every peer that is
    not an X25519 public key, [exchange] is the bare
    [raise TypeError("peer_public_key must be X25519PublicKey.")], the
    message ending in a full stop: against any provider it raises that
    error, leaves the provider state untouched and issues no call.  For
    every peer that is an X25519 public key, [exchange] is
    [_evp_pkey_derive] on this key's handle and the peer, whose first and
    only call is the derive operation of the provider on the two
    handles. *)
Theorem exchange_type_guard (St : Type) (h : provider St)
    (self : _X25519PrivateKey) (peer_public_key : pyobj) (s : St) :
  (isinstance_X25519PublicKey peer_public_key = None ->
   exchange self peer_public_key
   = Raise (TypeError "peer_public_key must be X25519PublicKey.")
   /\ run h (exchange self peer_public_key) s
      = (Raised (TypeError "peer_public_key must be X25519PublicKey."), s, []))
  /\ (forall peer, isinstance_X25519PublicKey peer_public_key = Some peer ->
      exchange self peer_public_key
      = _evp_pkey_derive (priv_evp_pkey self) peer
      /\ first_call (exchange self peer_public_key)
         = Some (ecdh_derive (priv_evp_pkey self) (pub_evp_pkey peer))
      /\ snd (run h (exchange self peer_public_key) s)
         = [ecdh_derive (priv_evp_pkey self) (pub_evp_pkey peer)]).
Proof.
  unfold exchange. split.
  - intros ->. split; reflexivity.
  - intros peer ->. repeat split.
    unfold _evp_pkey_derive, invoke. simpl.
    destruct (h _ s) as [[d | e] s']; reflexivity.
Qed.

Lemma exchange_type_guard_witness :
  run Ref.handler
    (exchange (new_X25519PrivateKey 1%N)
       (PyPrivateKey (new_X25519PrivateKey 2%N))) Ref.session
  = (Raised (TypeError "peer_public_key must be X25519PublicKey."),
     Ref.session, []).
Proof.
  destruct (exchange_type_guard Ref.state Ref.handler (new_X25519PrivateKey 1%N)
              (PyPrivateKey (new_X25519PrivateKey 2%N)) Ref.session)
    as [H _].
  apply H. reflexivity.
Defined.

(** C3, as the claim words it: the error raised for a peer of the wrong
    type does not carry the message without the final full stop. *)
Lemma exchange_type_guard_message :
  exchange (new_X25519PrivateKey 1%N) PyNone
  <> Raise (TypeError "peer_public_key must be X25519PublicKey").
Proof. discriminate. Qed.

(** C5: for every private key and every X25519 public key as peer,
    [exchange] is the single derive call of the provider on the two key
    handles with nothing applied to its answer: whenever the provider
    answers the call with the bytes [d], the run returns exactly [d], in
    the state the provider left, having issued that one call. *)
Theorem exchange_returns_derive_output (St : Type) (h : provider St)
    (self : _X25519PrivateKey) (peer : _X25519PublicKey)
    (s s' : St) (d : bytes) :
  h (ecdh_derive (priv_evp_pkey self) (pub_evp_pkey peer)) s = (inl d, s') ->
  exchange self (PyPublicKey peer)
  = invoke (ecdh_derive (priv_evp_pkey self) (pub_evp_pkey peer))
  /\ run h (exchange self (PyPublicKey peer)) s
     = (Returned d, s',
        [ecdh_derive (priv_evp_pkey self) (pub_evp_pkey peer)]).
Proof.
  intros E. split; [reflexivity |].
  unfold exchange, _evp_pkey_derive, invoke. simpl. rewrite E. reflexivity.
Qed.

Lemma exchange_returns_derive_output_witness :
  run Ref.handler
    (exchange (new_X25519PrivateKey 1%N) (PyPublicKey (new_X25519PublicKey 4%N)))
    Ref.session
  = (Returned Ref.shared, Ref.session, [ecdh_derive 1%N 4%N]).
Proof.
  apply (exchange_returns_derive_output Ref.state Ref.handler
           (new_X25519PrivateKey 1%N) (new_X25519PublicKey 4%N)
           Ref.session Ref.session Ref.shared).
  vm_compute. reflexivity.
Defined.

(** ** Fixed size of the outputs *)

(** C4: against any provider whose derive operation answers with 32
    bytes (its contract in section 6 of the specification), every raw
    export of a public or of a private key that returns, returns exactly
    32 bytes, and so does every exchange that returns; a raw export
    returns whenever the provider reports status 1 and length 32; and
    whenever the provider reports a status other than 1 or a length other
    than 32, the raw export ends in the fatal [InternalError]. *)
Theorem fixed_size_outputs (St : Type) (h : provider St)
    (Hderive : forall a y s d s',
        h (ecdh_derive a y) s = (inl d, s') -> List.length d = 32%nat)
    (pk : _X25519PublicKey) (sk : _X25519PrivateKey) (peer : pyobj) (s : St) :
  (forall b s' t,
      run h (public_bytes pk Encoding_Raw PublicFormat_Raw) s
      = (Returned b, s', t) -> List.length b = 32%nat)
  /\ (forall b s' t,
      run h (private_bytes sk Encoding_Raw PrivateFormat_Raw NoEncryption) s
      = (Returned b, s', t) -> List.length b = 32%nat)
  /\ (forall b s' t,
      run h (exchange sk peer) s = (Returned b, s', t) ->
      List.length b = 32%nat)
  /\ (forall res written buflen s',
      h (EVP_PKEY_get_raw_public_key (pub_evp_pkey pk)
           (ffi_new_uchar_array _X25519_KEY_SIZE) 32) s
      = (inl (res, written, buflen), s') ->
      (res = 1 /\ buflen = 32 ->
       exists b, fst (fst (run h (public_bytes pk Encoding_Raw PublicFormat_Raw) s))
                 = Returned b)
      /\ (res <> 1 \/ buflen <> 32 ->
          fst (fst (run h (public_bytes pk Encoding_Raw PublicFormat_Raw) s))
          = Raised InternalError))
  /\ (forall res written buflen s',
      h (EVP_PKEY_get_raw_private_key (priv_evp_pkey sk)
           (ffi_new_uchar_array _X25519_KEY_SIZE) 32) s
      = (inl (res, written, buflen), s') ->
      (res = 1 /\ buflen = 32 ->
       exists b,
         fst (fst (run h (private_bytes sk Encoding_Raw PrivateFormat_Raw
                            NoEncryption) s))
         = Returned b)
      /\ (res <> 1 \/ buflen <> 32 ->
          fst (fst (run h (private_bytes sk Encoding_Raw PrivateFormat_Raw
                             NoEncryption) s))
          = Raised InternalError)).
Proof.
  change (public_bytes pk Encoding_Raw PublicFormat_Raw)
    with (_raw_public_bytes pk).
  change (private_bytes sk Encoding_Raw PrivateFormat_Raw NoEncryption)
    with (_raw_private_bytes sk).
  repeat split.
  - intros b s' t. apply raw_public_bytes_returned_length.
  - intros b s' t. apply raw_private_bytes_returned_length.
  - intros b s' t. unfold exchange.
    destruct (isinstance_X25519PublicKey peer) as [p |]; [| discriminate].
    unfold _evp_pkey_derive, invoke. simpl.
    destruct (h _ s) as [[d | e] s0] eqn:E; [| discriminate].
    intros R. injection R as <- _ _. exact (Hderive _ _ _ _ _ E).
  - intros [-> ->]. rewrite run_raw_public_bytes. cbv zeta. rewrite H.
    eexists. reflexivity.
  - eapply raw_public_bytes_asserts. exact H.
  - intros [-> ->]. rewrite run_raw_private_bytes. cbv zeta. rewrite H.
    eexists. reflexivity.
  - eapply raw_private_bytes_asserts. exact H.
Qed.

(** ** The reference provider *)

Lemma encodeLittleEndian_length (n : nat) (z : Z) :
  List.length (RFC7748.encodeLittleEndian n z) = n.
Proof.
  revert z. induction n as [| n IH]; intros z; simpl; [| rewrite IH]; reflexivity.
Qed.

Lemma X25519_length (k u : bytes) :
  List.length (RFC7748.X25519 k u) = 32%nat.
Proof.
  unfold RFC7748.X25519.
  destruct (RFC7748.ladder _ _ _ _ _ _ _ _) as [[[[x_2 z_2] x_3] z_3] swap].
  destruct (RFC7748.cswap swap x_2 x_3) as [x_2' x_3'].
  destruct (RFC7748.cswap swap z_2 z_3) as [z_2' z_3'].
  apply encodeLittleEndian_length.
Qed.

(** The derive operation of the reference provider answers with 32 bytes. *)
Lemma ref_derive_length (a y : EVP_PKEY) (s : Ref.state) (d : bytes)
    (s' : Ref.state) :
  Ref.handler (ecdh_derive a y) s = (inl d, s') -> List.length d = 32%nat.
Proof.
  simpl. destruct (Ref.key_priv s a), (Ref.key_pub s y); try discriminate.
  intros E. injection E as <- _. apply X25519_length.
Qed.

Lemma fixed_size_outputs_witness :
  run Ref.handler
    (public_bytes (new_X25519PublicKey 3%N) Encoding_Raw PublicFormat_Raw)
    Ref.session
  = (Returned Ref.alice_pub, Ref.session,
     [EVP_PKEY_get_raw_public_key 3%N (ffi_new_uchar_array _X25519_KEY_SIZE) 32])
  /\ List.length Ref.alice_pub = 32%nat.
Proof.
  assert (R : run Ref.handler
                (public_bytes (new_X25519PublicKey 3%N) Encoding_Raw
                   PublicFormat_Raw) Ref.session
              = (Returned Ref.alice_pub, Ref.session,
                 [EVP_PKEY_get_raw_public_key 3%N
                    (ffi_new_uchar_array _X25519_KEY_SIZE) 32])).
  { vm_compute. reflexivity. }
  split; [exact R |].
  destruct (fixed_size_outputs Ref.state Ref.handler ref_derive_length
              (new_X25519PublicKey 3%N) (new_X25519PrivateKey 1%N)
              (PyPublicKey (new_X25519PublicKey 4%N)) Ref.session)
    as [H _].
  exact (H _ _ _ R).
Defined.

(** *** Handles *)

Lemma at_handle_app (A : Type) (l l' : list A) (x : N) (a : A) :
  Ref.at_handle l x = Some a -> Ref.at_handle (l ++ l') x = Some a.
Proof.
  destruct x as [| q]; simpl; [discriminate |].
  intros H. rewrite nth_error_app1; [exact H |].
  apply nth_error_Some. congruence.
Qed.

Lemma at_handle_next (A : Type) (l : list A) (a : A) :
  Ref.at_handle (l ++ [a]) (Ref.next_handle l) = Some a.
Proof.
  unfold Ref.next_handle, Ref.at_handle. cbn [N.of_nat].
  rewrite SuccNat2Pos.id_succ. cbn [Nat.pred].
  rewrite nth_error_app2, Nat.sub_diag by lia. reflexivity.
Qed.

Lemma next_handle_not_null (A : Type) (l : list A) : Ref.next_handle l <> NULL.
Proof. discriminate. Qed.

Lemma nth_error_set_nth (A : Type) (l : list A) (n : nat) (a v : A) :
  nth_error l n = Some a -> nth_error (Ref.set_nth l n v) n = Some v.
Proof.
  revert n. induction l as [| b l IH]; intros [| n]; simpl;
    try discriminate; auto.
Qed.

Lemma at_handle_set_handle (A : Type) (l : list A) (x : N) (a v : A) :
  Ref.at_handle l x = Some a ->
  Ref.at_handle (Ref.set_handle l x v) x = Some v.
Proof.
  destruct x as [| q]; simpl; [discriminate |]. apply nth_error_set_nth.
Qed.

(** *** Encoded public keys *)

Lemma bytes_eqb_refl (b : bytes) : bytes_eqb b b = true.
Proof.
  induction b as [| x b IH]; simpl; [reflexivity |].
  rewrite IH, (Byte.byte_dec_lb (eq_refl x)). reflexivity.
Qed.

Lemma unspki_spki (P : bytes) :
  List.length P = _X25519_KEY_SIZE -> Ref.unspki (Ref.spki P) = Some P.
Proof.
  intros Hlen. unfold Ref.unspki, Ref.spki.
  assert (Hh : List.length Ref.spki_header = 12%nat) by reflexivity.
  replace (firstn 12 (Ref.spki_header ++ P)) with Ref.spki_header.
  - replace (skipn 12 (Ref.spki_header ++ P)) with P.
    + rewrite bytes_eqb_refl, Hlen. reflexivity.
    + rewrite <- Hh, skipn_app, skipn_all, Nat.sub_diag. reflexivity.
  - rewrite <- Hh, firstn_app, firstn_all, Nat.sub_diag, firstn_O.
    symmetry. apply app_nil_r.
Qed.

Lemma unspki_key_size (blob P : bytes) :
  Ref.unspki blob = Some P -> Ref.has_key_size P = true.
Proof.
  unfold Ref.unspki, Ref.has_key_size.
  destruct (bytes_eqb _ _); simpl; [| discriminate].
  destruct (_ =? _)%nat eqn:E; [| discriminate].
  intros H. injection H as <-. exact E.
Qed.

Lemma unspki_all_snoc (blobs : list bytes) (q : list bytes) (P : bytes) :
  Ref.unspki_all blobs = Some q -> List.length P = _X25519_KEY_SIZE ->
  Ref.unspki_all (blobs ++ [Ref.spki P]) = Some (q ++ [P]).
Proof.
  intros H Hlen. revert q H.
  induction blobs as [| b blobs IH]; intros q H; simpl in *.
  - injection H as <-. rewrite (unspki_spki P Hlen). reflexivity.
  - destruct (Ref.unspki b) as [Q |]; [| discriminate].
    destruct (Ref.unspki_all blobs) as [q' |]; [| discriminate].
    injection H as <-. rewrite (IH q' eq_refl). reflexivity.
Qed.

(** *** Key material *)

Lemma ref_key_pub_length (s : Ref.state) (x : EVP_PKEY) (P : bytes) :
  Ref.key_pub s x = Some P -> List.length P = _X25519_KEY_SIZE.
Proof.
  unfold Ref.key_pub, Ref.has_key_size.
  destruct (Ref.at_handle _ x) as [km |]; [| discriminate].
  destruct (_ =? _)%nat eqn:E; [| discriminate].
  intros H. injection H as <-. apply Nat.eqb_eq. exact E.
Qed.

Lemma ref_key_priv_length (s : Ref.state) (x : EVP_PKEY) (d : bytes) :
  Ref.key_priv s x = Some d -> List.length d = _X25519_KEY_SIZE.
Proof.
  unfold Ref.key_priv, Ref.has_key_size.
  destruct (Ref.at_handle _ x) as [km |]; [| discriminate].
  destruct (Ref.km_priv km) as [d' |]; [| discriminate].
  destruct (_ =? _)%nat eqn:E; [| discriminate].
  intros H. injection H as <-. apply Nat.eqb_eq. exact E.
Qed.

(** Key objects are only ever added, at the end. *)
Lemma ref_key_pub_grow (s : Ref.state) (l : list Ref.keymat)
    (b : list (list bytes)) (x : EVP_PKEY) (P : bytes) :
  Ref.key_pub s x = Some P ->
  Ref.key_pub {| Ref.keys := Ref.keys s ++ l; Ref.bios := b |} x = Some P.
Proof.
  unfold Ref.key_pub. cbn [Ref.keys].
  destruct (Ref.at_handle (Ref.keys s) x) as [km |] eqn:E; [| discriminate].
  rewrite (at_handle_app _ _ l _ _ E). trivial.
Qed.

Lemma ref_key_priv_grow (s : Ref.state) (l : list Ref.keymat)
    (b : list (list bytes)) (x : EVP_PKEY) (d : bytes) :
  Ref.key_priv s x = Some d ->
  Ref.key_priv {| Ref.keys := Ref.keys s ++ l; Ref.bios := b |} x = Some d.
Proof.
  unfold Ref.key_priv. cbn [Ref.keys].
  destruct (Ref.at_handle (Ref.keys s) x) as [km |] eqn:E; [| discriminate].
  rewrite (at_handle_app _ _ l _ _ E). trivial.
Qed.

Lemma ref_key_pub_same (s : Ref.state) (b : list (list bytes))
    (x : EVP_PKEY) :
  Ref.key_pub {| Ref.keys := Ref.keys s; Ref.bios := b |} x = Ref.key_pub s x.
Proof. reflexivity. Qed.

Lemma ref_key_priv_same (s : Ref.state) (b : list (list bytes))
    (x : EVP_PKEY) :
  Ref.key_priv {| Ref.keys := Ref.keys s; Ref.bios := b |} x = Ref.key_priv s x.
Proof. reflexivity. Qed.

Lemma ref_frame_pub (c : call) (s : Ref.state) (r : resp c + exn)
    (s' : Ref.state) (x : EVP_PKEY) (P : bytes) :
  Ref.handler c s = (r, s') ->
  Ref.key_pub s x = Some P -> Ref.key_pub s' x = Some P.
Proof.
  intros E H. destruct c; cbn [Ref.handler] in E; handler_cases E;
    trivial; solve [ apply ref_key_pub_grow; exact H
                   | rewrite ref_key_pub_same; exact H ].
Qed.

Lemma ref_frame_priv (c : call) (s : Ref.state) (r : resp c + exn)
    (s' : Ref.state) (x : EVP_PKEY) (d : bytes) :
  Ref.handler c s = (r, s') ->
  Ref.key_priv s x = Some d -> Ref.key_priv s' x = Some d.
Proof.
  intros E H. destruct c; cbn [Ref.handler] in E; handler_cases E;
    trivial; solve [ apply ref_key_priv_grow; exact H
                   | rewrite ref_key_priv_same; exact H ].
Qed.

(** ** Public key derivation *)

(** C6: for every private key, in whatever provider state the call is
    made, [public_key] returns a public key exactly when the provider
    carries out the round trip on the handle the private key holds: it
    hands out a memory BIO, writes the public part of that handle into it
    with status 1 and reads a key object, not NULL, back from that BIO.
    The public key returned wraps the handle read back in this very call
    and the calls issued are those three.  A private key is its handle
    and nothing more, so there is no stored public key to read. *)
Theorem public_key_rederives (St : Type) (h : provider St)
    (self : _X25519PrivateKey) (s : St) :
  self = new_X25519PrivateKey (priv_evp_pkey self)
  /\ first_call (public_key self) = Some _create_mem_bio_gc
  /\ forall pk s' t,
      run h (public_key self) s = (Returned pk, s', t)
      <-> exists bio s1 s2 y,
          h _create_mem_bio_gc s = (inl bio, s1)
          /\ h (i2d_PUBKEY_bio bio (priv_evp_pkey self)) s1 = (inl 1, s2)
          /\ h (d2i_PUBKEY_bio bio NULL) s2 = (inl y, s')
          /\ y <> NULL
          /\ pk = new_X25519PublicKey y
          /\ t = [_create_mem_bio_gc;
                  i2d_PUBKEY_bio bio (priv_evp_pkey self);
                  d2i_PUBKEY_bio bio NULL].
Proof.
  split; [destruct self; reflexivity |].
  split; [reflexivity |].
  intros pk s' t. unfold public_key. cbn. split.
  - destruct (h _create_mem_bio_gc s) as [[bio | e] s1] eqn:E1; [| discriminate].
    cbn.
    destruct (h (i2d_PUBKEY_bio bio (priv_evp_pkey self)) s1)
      as [[res | e] s2] eqn:E2; [| discriminate].
    destruct (Z.eqb_spec res 1) as [-> | Hres]; cbn; [| discriminate].
    destruct (h (d2i_PUBKEY_bio bio NULL) s2) as [[y | e] s3] eqn:E3;
      [| discriminate].
    destruct (N.eqb_spec y NULL) as [-> | Hy]; cbn; [discriminate |].
    intros R. injection R as <- <- <-.
    exists bio, s1, s2, y. repeat split; assumption.
  - intros (bio & s1 & s2 & y & E1 & E2 & E3 & Hy & -> & ->).
    rewrite E1. cbn. rewrite E2. cbn. rewrite E3.
    apply N.eqb_neq in Hy. rewrite Hy. reflexivity.
Qed.

Lemma public_key_rederives_witness :
  exists s',
    run Ref.handler (public_key (new_X25519PrivateKey 1%N)) Ref.session
    = (Returned (new_X25519PublicKey 5%N), s',
       [_create_mem_bio_gc; i2d_PUBKEY_bio 1%N 1%N; d2i_PUBKEY_bio 1%N NULL])
    /\ Ref.key_pub s' 5%N = Some Ref.alice_pub.
Proof.
  eexists. split.
  - destruct (public_key_rederives Ref.state Ref.handler
                (new_X25519PrivateKey 1%N) Ref.session) as (_ & _ & H).
    apply H. exists 1%N. eexists. eexists. exists 5%N.
    repeat split; try reflexivity. discriminate.
  - reflexivity.
Defined.

(** ** Properties that rest on the contract of the provider *)

Section UnderContract.

Variable St : Type.
Variable h : provider St.
Variable key_pub key_priv : St -> EVP_PKEY -> option bytes.
Variable bio_keys : St -> BIO -> option (list bytes).
Variable X25519 : bytes -> bytes -> bytes.
Variable basepoint : bytes.
Hypothesis HC : provider_contract h key_pub key_priv bio_keys X25519 basepoint.

(** A run never changes the material behind a live handle. *)
Lemma run_frame_pub (A : Type) (p : prog A) (s : St) (x : EVP_PKEY) (P : bytes) :
  key_pub s x = Some P -> key_pub (snd (fst (run h p s))) x = Some P.
Proof.
  revert s. induction p as [a | e | c k IH]; intros s Hx; simpl; trivial.
  destruct (h c s) as [[r | e] s'] eqn:E.
  - specialize (IH r s' (pc_frame_pub HC _ _ _ E Hx)).
    destruct (run h (k r) s') as [[o s''] t]. exact IH.
  - exact (pc_frame_pub HC _ _ _ E Hx).
Qed.

Lemma run_frame_priv (A : Type) (p : prog A) (s : St) (x : EVP_PKEY) (d : bytes) :
  key_priv s x = Some d -> key_priv (snd (fst (run h p s))) x = Some d.
Proof.
  revert s. induction p as [a | e | c k IH]; intros s Hx; simpl; trivial.
  destruct (h c s) as [[r | e] s'] eqn:E.
  - specialize (IH r s' (pc_frame_priv HC _ _ _ E Hx)).
    destruct (run h (k r) s') as [[o s''] t]. exact IH.
  - exact (pc_frame_priv HC _ _ _ E Hx).
Qed.

(** Deriving the public key of a live key succeeds and yields a new
    handle with the same public material. *)
Lemma public_key_contract (sk : _X25519PrivateKey) (s : St) (P : bytes) :
  key_pub s (priv_evp_pkey sk) = Some P ->
  exists y s' t,
    run h (public_key sk) s = (Returned (new_X25519PublicKey y), s', t)
    /\ key_pub s' y = Some P.
Proof.
  intros Hx.
  destruct (pc_create_mem_bio HC s) as (bio & s1 & E1 & B1).
  pose proof (pc_frame_pub HC _ _ _ E1 Hx) as Hx1.
  destruct (pc_i2d_PUBKEY_bio HC _ _ _ Hx1 B1) as (s2 & E2 & B2).
  destruct (pc_d2i_PUBKEY_bio HC _ _ NULL B2) as (y & s3 & E3 & Hy & K3).
  exists y, s3. eexists. split; [| exact K3].
  unfold public_key. cbn. rewrite E1. cbn. rewrite E2. cbn. rewrite E3.
  apply N.eqb_neq in Hy. rewrite Hy. reflexivity.
Qed.

(** The raw export of a live public key returns its material. *)
Lemma public_bytes_contract (pk : _X25519PublicKey) (s : St) (P : bytes) :
  key_pub s (pub_evp_pkey pk) = Some P ->
  exists s' t,
    run h (public_bytes pk Encoding_Raw PublicFormat_Raw) s
    = (Returned P, s', t).
Proof.
  intros Hx.
  destruct (pc_get_raw_public_key HC _ _
              (ffi_new_uchar_array _X25519_KEY_SIZE) Hx) as (s' & E).
  { apply repeat_length. }
  exists s'. eexists.
  change (public_bytes pk Encoding_Raw PublicFormat_Raw)
    with (_raw_public_bytes pk).
  rewrite run_raw_public_bytes. cbv zeta. rewrite E. cbn [Z.eqb andb].
  rewrite ffi_buffer_stored_full by exact (pc_pub_len HC _ _ Hx).
  reflexivity.
Qed.

(** The raw export of a live private key returns its scalar. *)
Lemma private_bytes_contract (sk : _X25519PrivateKey) (s : St) (d : bytes) :
  key_priv s (priv_evp_pkey sk) = Some d ->
  exists s' t,
    run h (private_bytes sk Encoding_Raw PrivateFormat_Raw NoEncryption) s
    = (Returned d, s', t).
Proof.
  intros Hx.
  destruct (pc_get_raw_private_key HC _ _
              (ffi_new_uchar_array _X25519_KEY_SIZE) Hx) as (s' & E).
  { apply repeat_length. }
  exists s'. eexists.
  change (private_bytes sk Encoding_Raw PrivateFormat_Raw NoEncryption)
    with (_raw_private_bytes sk).
  rewrite run_raw_private_bytes. cbv zeta. rewrite E. cbn [Z.eqb andb].
  rewrite ffi_buffer_stored_full by exact (pc_priv_len HC _ _ Hx).
  reflexivity.
Qed.

(** An exchange between a live private key and a live public key returns
    the X25519 function of the two pieces of material. *)
Lemma exchange_contract (sk : _X25519PrivateKey) (pk : _X25519PublicKey)
    (s : St) (d P : bytes) :
  key_priv s (priv_evp_pkey sk) = Some d ->
  key_pub s (pub_evp_pkey pk) = Some P ->
  exists s' t,
    run h (exchange sk (PyPublicKey pk)) s = (Returned (X25519 d P), s', t).
Proof.
  intros Hd HP.
  destruct (pc_ecdh_derive HC _ _ _ Hd HP) as (s' & E).
  exists s'. eexists.
  unfold exchange, _evp_pkey_derive, invoke. simpl. rewrite E. reflexivity.
Qed.

(** C7: against a provider that meets the contract, for every valid
    private key, deriving the public key twice in a row succeeds both
    times, and the raw exports (Raw encoding, Raw format) of the two
    public keys obtained succeed and return the same bytes, the public
    point of the key. *)
Theorem public_key_deterministic (sk : _X25519PrivateKey) (s : St) (d : bytes) :
  valid_private key_pub key_priv X25519 basepoint s sk d ->
  exists pk1 s1 t1 pk2 s2 t2 b s3 t3 s4 t4,
    run h (public_key sk) s = (Returned pk1, s1, t1)
    /\ run h (public_key sk) s1 = (Returned pk2, s2, t2)
    /\ run h (public_bytes pk1 Encoding_Raw PublicFormat_Raw) s2
       = (Returned b, s3, t3)
    /\ run h (public_bytes pk2 Encoding_Raw PublicFormat_Raw) s3
       = (Returned b, s4, t4)
    /\ b = X25519 d basepoint.
Proof.
  intros [_ Hpub].
  destruct (public_key_contract sk s _ Hpub) as (y1 & s1 & t1 & R1 & K1).
  assert (Hpub1 : key_pub s1 (priv_evp_pkey sk) = Some (X25519 d basepoint)).
  { pose proof (run_frame_pub _ (public_key sk) s _ _ Hpub) as F.
    rewrite R1 in F. exact F. }
  destruct (public_key_contract sk s1 _ Hpub1) as (y2 & s2 & t2 & R2 & K2).
  assert (K1' : key_pub s2 y1 = Some (X25519 d basepoint)).
  { pose proof (run_frame_pub _ (public_key sk) s1 _ _ K1) as F.
    rewrite R2 in F. exact F. }
  destruct (public_bytes_contract (new_X25519PublicKey y1) s2 _ K1')
    as (s3 & t3 & R3).
  assert (K2' : key_pub s3 y2 = Some (X25519 d basepoint)).
  { pose proof (run_frame_pub _
                  (public_bytes (new_X25519PublicKey y1) Encoding_Raw
                     PublicFormat_Raw) s2 _ _ K2) as F.
    rewrite R3 in F. exact F. }
  destruct (public_bytes_contract (new_X25519PublicKey y2) s3 _ K2')
    as (s4 & t4 & R4).
  exists (new_X25519PublicKey y1), s1, t1, (new_X25519PublicKey y2), s2, t2,
    (X25519 d basepoint), s3, t3, s4, t4.
  repeat split; assumption.
Qed.

(** Two exchanges between valid key pairs both succeed, and they return
    the same bytes as soon as the X25519 function of the provider
    commutes on the two scalars. *)
Lemma exchange_agree_under_law (a_priv b_priv : _X25519PrivateKey)
    (a_pub b_pub : _X25519PublicKey) (s s' : St) (da db : bytes) :
  valid_pair key_pub key_priv X25519 basepoint s a_priv a_pub da ->
  valid_pair key_pub key_priv X25519 basepoint s b_priv b_pub db ->
  valid_pair key_pub key_priv X25519 basepoint s' a_priv a_pub da ->
  valid_pair key_pub key_priv X25519 basepoint s' b_priv b_pub db ->
  X25519 da (X25519 db basepoint) = X25519 db (X25519 da basepoint) ->
  exists z s1 t1 s2 t2,
    run h (exchange a_priv (PyPublicKey b_pub)) s = (Returned z, s1, t1)
    /\ run h (exchange b_priv (PyPublicKey a_pub)) s' = (Returned z, s2, t2)
    /\ z = X25519 da (X25519 db basepoint).
Proof.
  intros [Ha _] [_ Hb] [_ Ha'] [Hb' _] Hdh.
  destruct (exchange_contract a_priv b_pub s _ _ Ha Hb) as (s1 & t1 & R1).
  destruct (exchange_contract b_priv a_pub s' _ _ Hb' Ha') as (s2 & t2 & R2).
  exists (X25519 da (X25519 db basepoint)), s1, t1, s2, t2.
  split; [exact R1 |]. split; [| reflexivity]. rewrite Hdh. exact R2.
Qed.

(** C9: against a provider that meets the contract, for every raw scalar
    of 32 bytes, building a private key from it succeeds, and exporting
    that key with Raw encoding, Raw format and no encryption succeeds and
    returns the scalar itself. *)
Theorem private_bytes_roundtrip (s : St) (d : bytes) :
  List.length d = _X25519_KEY_SIZE ->
  exists sk s1 t1 s2 t2,
    run h (from_private_bytes d) s = (Returned sk, s1, t1)
    /\ run h (private_bytes sk Encoding_Raw PrivateFormat_Raw NoEncryption) s1
       = (Returned d, s2, t2).
Proof.
  intros Hlen.
  destruct (pc_load_raw_private HC s _ Hlen) as (x & s1 & E & Hd & _).
  destruct (private_bytes_contract (new_X25519PrivateKey x) s1 _ Hd)
    as (s2 & t2 & R2).
  exists (new_X25519PrivateKey x), s1. eexists. exists s2, t2.
  split; [| exact R2].
  unfold from_private_bytes, invoke. simpl. rewrite E. reflexivity.
Qed.

End UnderContract.

(** ** The reference provider meets the contract *)

Lemma ref_contract :
  provider_contract Ref.handler Ref.key_pub Ref.key_priv Ref.bio_keys
    RFC7748.X25519 RFC7748.basepoint.
Proof.
  constructor.
  - exact ref_key_pub_length.
  - exact ref_key_priv_length.
  - exact ref_frame_pub.
  - exact ref_frame_priv.
  - intros s. eexists. eexists. split; [reflexivity |].
    unfold Ref.bio_keys. cbn [Ref.bios].
    rewrite at_handle_next. reflexivity.
  - intros s bio x P q HP Hq. unfold Ref.bio_keys in Hq.
    destruct (Ref.at_handle (Ref.bios s) bio) as [blobs |] eqn:Eb;
      [| discriminate].
    eexists. split.
    + cbn [Ref.handler]. rewrite HP, Eb. reflexivity.
    + unfold Ref.bio_keys. cbn [Ref.bios].
      rewrite (at_handle_set_handle _ _ _ _ _ Eb).
      apply unspki_all_snoc; [exact Hq |].
      exact (ref_key_pub_length _ _ _ HP).
  - intros s bio a P q Hq. unfold Ref.bio_keys in Hq.
    destruct (Ref.at_handle (Ref.bios s) bio) as [[| blob blobs] |] eqn:Eb;
      try discriminate.
    cbn [Ref.unspki_all] in Hq.
    destruct (Ref.unspki blob) as [P' |] eqn:Eu; [| discriminate].
    destruct (Ref.unspki_all blobs) as [q' |]; [| discriminate].
    injection Hq as -> ->.
    eexists. eexists. split; [| split].
    + cbn [Ref.handler]. rewrite Eb, Eu. reflexivity.
    + apply next_handle_not_null.
    + unfold Ref.key_pub. cbn [Ref.keys]. rewrite at_handle_next.
      cbn [Ref.km_pub]. rewrite (unspki_key_size _ _ Eu). reflexivity.
  - intros s x P buf HP _. eexists.
    cbn [Ref.handler]. rewrite HP. reflexivity.
  - intros s x d buf Hd _. eexists.
    cbn [Ref.handler]. rewrite Hd. reflexivity.
  - intros s a y d P Hd HP. eexists.
    cbn [Ref.handler]. rewrite Hd, HP. reflexivity.
  - intros s d Hlen.
    assert (Hsize : Ref.has_key_size d = true).
    { unfold Ref.has_key_size. rewrite Hlen. reflexivity. }
    eexists. eexists. split; [| split].
    + cbn [Ref.handler]. rewrite Hsize. reflexivity.
    + unfold Ref.key_priv. cbn [Ref.keys]. rewrite at_handle_next.
      cbn [Ref.km_priv]. rewrite Hsize. reflexivity.
    + unfold Ref.key_pub. cbn [Ref.keys]. rewrite at_handle_next.
      cbn [Ref.km_pub]. unfold Ref.has_key_size.
      rewrite X25519_length. reflexivity.
Qed.

(** The function of the reference provider on the vectors of RFC 7748,
    section 6.1. *)
Example rfc7748_alice_public :
  RFC7748.X25519 Ref.alice RFC7748.basepoint = Ref.alice_pub.
Proof. vm_compute. reflexivity. Qed.

Example rfc7748_bob_public :
  RFC7748.X25519 Ref.bob RFC7748.basepoint = Ref.bob_pub.
Proof. vm_compute. reflexivity. Qed.

Lemma public_key_deterministic_witness :
  exists pk1 s1 t1 pk2 s2 t2 b s3 t3 s4 t4,
    run Ref.handler (public_key (new_X25519PrivateKey 1%N)) Ref.session
    = (Returned pk1, s1, t1)
    /\ run Ref.handler (public_key (new_X25519PrivateKey 1%N)) s1
       = (Returned pk2, s2, t2)
    /\ run Ref.handler (public_bytes pk1 Encoding_Raw PublicFormat_Raw) s2
       = (Returned b, s3, t3)
    /\ run Ref.handler (public_bytes pk2 Encoding_Raw PublicFormat_Raw) s3
       = (Returned b, s4, t4)
    /\ b = RFC7748.X25519 Ref.alice RFC7748.basepoint.
Proof.
  apply (public_key_deterministic Ref.state Ref.handler Ref.key_pub
           Ref.key_priv Ref.bio_keys RFC7748.X25519 RFC7748.basepoint
           ref_contract (new_X25519PrivateKey 1%N) Ref.session Ref.alice).
  split; vm_compute; reflexivity.
Defined.

(** The two exchanges of RFC 7748, section 6.1, on the reference
    provider. *)
Example rfc7748_exchange_agree :
  exists z s1 t1 s2 t2,
    run Ref.handler
      (exchange (new_X25519PrivateKey 1%N)
         (PyPublicKey (new_X25519PublicKey 4%N))) Ref.session
    = (Returned z, s1, t1)
    /\ run Ref.handler
         (exchange (new_X25519PrivateKey 2%N)
            (PyPublicKey (new_X25519PublicKey 3%N))) Ref.session
       = (Returned z, s2, t2)
    /\ z = RFC7748.X25519 Ref.alice (RFC7748.X25519 Ref.bob RFC7748.basepoint).
Proof.
  apply (exchange_agree_under_law Ref.state Ref.handler Ref.key_pub
           Ref.key_priv Ref.bio_keys RFC7748.X25519 RFC7748.basepoint
           ref_contract
           (new_X25519PrivateKey 1%N) (new_X25519PrivateKey 2%N)
           (new_X25519PublicKey 3%N) (new_X25519PublicKey 4%N)
           Ref.session Ref.session Ref.alice Ref.bob).
  - split; vm_compute; reflexivity.
  - split; vm_compute; reflexivity.
  - split; vm_compute; reflexivity.
  - split; vm_compute; reflexivity.
  - vm_compute. reflexivity.
Qed.

Lemma private_bytes_roundtrip_witness :
  exists sk s1 t1 s2 t2,
    run Ref.handler (from_private_bytes Ref.alice) Ref.init
    = (Returned sk, s1, t1)
    /\ run Ref.handler
         (private_bytes sk Encoding_Raw PrivateFormat_Raw NoEncryption) s1
       = (Returned Ref.alice, s2, t2).
Proof.
  apply (private_bytes_roundtrip Ref.state Ref.handler Ref.key_pub
           Ref.key_priv Ref.bio_keys RFC7748.X25519 RFC7748.basepoint
           ref_contract Ref.init Ref.alice).
  reflexivity.
Defined.

(** The scenario of section 8 of the specification, run from an empty
    provider: both parties load their scalar, derive and export their
    public key, and exchange. *)
Example rfc7748_scenario :
  fst (fst (run Ref.handler
    (a <- from_private_bytes Ref.alice ;;
     b <- from_private_bytes Ref.bob ;;
     a_pub <- public_key a ;;
     b_pub <- public_key b ;;
     a_raw <- public_bytes a_pub Encoding_Raw PublicFormat_Raw ;;
     b_raw <- public_bytes b_pub Encoding_Raw PublicFormat_Raw ;;
     k1 <- exchange a (PyPublicKey b_pub) ;;
     k2 <- exchange b (PyPublicKey a_pub) ;;
     Ret (a_raw, b_raw, k1, k2)) Ref.init))
  = Returned (Ref.alice_pub, Ref.bob_pub, Ref.shared, Ref.shared).
Proof. vm_compute. reflexivity. Qed.

(** ** Exchange symmetry *)

(** *** The Diffie-Hellman law of the second provider *)















(** *** Symmetry for every provider that multiplies by scalars *)

Section ScalarMultiplication.

Variable St : Type.
Variable h : provider St.
Variable key_pub key_priv : St -> EVP_PKEY -> option bytes.
Variable bio_keys : St -> BIO -> option (list bytes).
Variable X25519 : bytes -> bytes -> bytes.
Variable basepoint : bytes.
Hypothesis HC : provider_contract h key_pub key_priv bio_keys X25519 basepoint.

(** The derive operation is a scalar multiplication: the private bytes
    stand for a natural number, and multiplying a point by [n] and then
    by [m] is multiplying it by [m * n]. *)
Variable scalar : bytes -> N.
Variable smul : N -> bytes -> bytes.
Hypothesis X25519_smul : forall d P, X25519 d P = smul (scalar d) P.
Hypothesis smul_smul : forall m n P, smul m (smul n P) = smul (m * n) P.



End ScalarMultiplication.


(** The secret the two sides agree on with this provider, for the scalars
    of RFC 7748, section 6.1. *)
Example ffdh_shared_secret :
  FFDH.derive Ref.alice (FFDH.derive Ref.bob RFC7748.basepoint)
  = unhex "973f6166ec3e4756ea0e1e9b04200f4d1bc66318facf1dac7639fabd2cf68203".
Proof. vm_compute. reflexivity. Qed.

(** * Further properties of the methods *)

(** ** Sequencing *)

Lemma run_bind (St A B : Type) (h : provider St) (p : prog A)
    (f : A -> prog B) (s : St) :
  run h (bind p f) s =
  match run h p s with
  | (Returned a, s', t) =>
      let '(o, s'', t') := run h (f a) s' in (o, s'', t ++ t')
  | (Raised e, s', t) => (Raised e, s', t)
  end.
Proof.
  revert s. induction p as [a | e | c k IH]; intros s; simpl.
  - destruct (run h (f a) s) as [[o s''] t']. reflexivity.
  - reflexivity.
  - destruct (h c s) as [[r | e] s']; [| reflexivity].
    rewrite IH. destruct (run h (k r) s') as [[[a | e] s''] t]; [| reflexivity].
    destruct (run h (f a) s'') as [[o s3] t']. reflexivity.
Qed.

Lemma run_bind_returned (St A B : Type) (h : provider St) (p : prog A)
    (f : A -> prog B) (s s' s'' : St) (a : A) (o : outcome B)
    (t t' : list call) :
  run h p s = (Returned a, s', t) ->
  run h (f a) s' = (o, s'', t') ->
  run h (bind p f) s = (o, s'', t ++ t').
Proof. intros R1 R2. rewrite run_bind, R1, R2. reflexivity. Qed.

(** An exception out of a run is a leaf of the program or was raised by
    the provider. *)
Lemma run_raised_origin (St A : Type) (h : provider St) (p : prog A)
    (s : St) (e : exn) :
  fst (fst (run h p s)) = Raised e -> may_raise p e \/ provider_raised h e.
Proof.
  revert s. induction p as [a | e' | c k IH]; intros s; simpl.
  - discriminate.
  - intros E. injection E as ->. left. reflexivity.
  - destruct (h c s) as [[r | e'] s'] eqn:E.
    + specialize (IH r s').
      destruct (run h (k r) s') as [[o s''] t]. simpl in *.
      intros R. destruct (IH R) as [M | M]; [left; exists r; exact M | right; exact M].
    + simpl. intros R. injection R as ->. right. exists c, s, s'. exact E.
Qed.

(** ** Structured export of a public key *)

(** X1: for every public key and every encoding and format neither of
    which is Raw, [public_bytes] is the single call of the backend's
    [_public_key_bytes] with the encoding, the format, the key, its
    handle and [None]; no leaf of the program is an exception of the
    method itself, and a run returns the bytes of the backend or
    propagates the exception of the backend. *)
Theorem public_bytes_structured_delegates (St : Type) (h : provider St)
    (self : _X25519PublicKey) (encoding : Encoding) (format : PublicFormat)
    (s : St) :
  encoding <> Encoding_Raw -> format <> PublicFormat_Raw ->
  let c := _public_key_bytes encoding format self (pub_evp_pkey self) None in
  public_bytes self encoding format = invoke c
  /\ (forall e, ~ may_raise (public_bytes self encoding format) e)
  /\ run h (public_bytes self encoding format) s
     = (match fst (h c s) with inl b => Returned b | inr e => Raised e end,
        snd (h c s), [c]).
Proof.
  intros He Hf c.
  assert (E : public_bytes self encoding format = invoke c).
  { destruct encoding, format; try contradiction; reflexivity. }
  rewrite E. split; [reflexivity | split].
  - intros e [r []].
  - unfold invoke. simpl. destruct (h c s) as [[b | e] s']; reflexivity.
Qed.

Lemma public_bytes_structured_delegates_witness :
  run Ref.handler
    (public_bytes (new_X25519PublicKey 4%N) Encoding_DER
       PublicFormat_SubjectPublicKeyInfo) Ref.session
  = (Returned (Ref.spki Ref.bob_pub), Ref.session,
     [_public_key_bytes Encoding_DER PublicFormat_SubjectPublicKeyInfo
        (new_X25519PublicKey 4%N) 4%N None]).
Proof.
  destruct (public_bytes_structured_delegates Ref.state Ref.handler
              (new_X25519PublicKey 4%N) Encoding_DER
              PublicFormat_SubjectPublicKeyInfo Ref.session)
    as (_ & _ & H); [discriminate | discriminate |].
  rewrite H. reflexivity.
Defined.

(** ** The raw exports hand back what the provider stored *)

(** X2: against any provider, when the raw export call reports status 1
    and length 32 and stored exactly 32 bytes, the raw export of a public
    key, and likewise of a private key, returns those very bytes, in the
    state the provider left, having issued that single call. *)
Theorem raw_export_transparent (St : Type) (h : provider St) (s s' : St)
    (written : bytes) :
  List.length written = _X25519_KEY_SIZE ->
  (forall pk,
      h (EVP_PKEY_get_raw_public_key (pub_evp_pkey pk)
           (ffi_new_uchar_array _X25519_KEY_SIZE) 32) s
      = (inl (1, written, 32), s') ->
      run h (public_bytes pk Encoding_Raw PublicFormat_Raw) s
      = (Returned written, s',
         [EVP_PKEY_get_raw_public_key (pub_evp_pkey pk)
            (ffi_new_uchar_array _X25519_KEY_SIZE) 32]))
  /\ (forall sk,
      h (EVP_PKEY_get_raw_private_key (priv_evp_pkey sk)
           (ffi_new_uchar_array _X25519_KEY_SIZE) 32) s
      = (inl (1, written, 32), s') ->
      run h (private_bytes sk Encoding_Raw PrivateFormat_Raw NoEncryption) s
      = (Returned written, s',
         [EVP_PKEY_get_raw_private_key (priv_evp_pkey sk)
            (ffi_new_uchar_array _X25519_KEY_SIZE) 32])).
Proof.
  intros Hlen. split.
  - intros pk E.
    change (public_bytes pk Encoding_Raw PublicFormat_Raw)
      with (_raw_public_bytes pk).
    rewrite run_raw_public_bytes. cbv zeta. rewrite E. cbn [Z.eqb andb].
    rewrite (ffi_buffer_stored_full written Hlen). reflexivity.
  - intros sk E.
    change (private_bytes sk Encoding_Raw PrivateFormat_Raw NoEncryption)
      with (_raw_private_bytes sk).
    rewrite run_raw_private_bytes. cbv zeta. rewrite E. cbn [Z.eqb andb].
    rewrite (ffi_buffer_stored_full written Hlen). reflexivity.
Qed.

Lemma raw_export_transparent_witness :
  run Ref.handler
    (private_bytes (new_X25519PrivateKey 2%N) Encoding_Raw PrivateFormat_Raw
       NoEncryption) Ref.session
  = (Returned Ref.bob, Ref.session,
     [EVP_PKEY_get_raw_private_key 2%N
        (ffi_new_uchar_array _X25519_KEY_SIZE) 32]).
Proof.
  destruct (raw_export_transparent Ref.state Ref.handler Ref.session
              Ref.session Ref.bob eq_refl) as [_ H].
  apply (H (new_X25519PrivateKey 2%N)). reflexivity.
Defined.

(** ** Failures of the public key derivation *)

(** X3: in [public_key] each assertion guards the step after it.  When
    the provider hands out a BIO and answers [i2d_PUBKEY_bio] with a
    status other than 1, the method ends in the fatal [InternalError]
    after those two calls and never asks the provider to read a key
    back; when the status is 1 and [d2i_PUBKEY_bio] answers NULL, it ends
    in [InternalError] after the three calls: no public key is ever
    built around a null handle. *)
Theorem public_key_assert_order (St : Type) (h : provider St)
    (self : _X25519PrivateKey) (s s1 s2 : St) (bio : BIO) (res : Z) :
  h _create_mem_bio_gc s = (inl bio, s1) ->
  h (i2d_PUBKEY_bio bio (priv_evp_pkey self)) s1 = (inl res, s2) ->
  (res <> 1 ->
   run h (public_key self) s
   = (Raised InternalError, s2,
      [_create_mem_bio_gc; i2d_PUBKEY_bio bio (priv_evp_pkey self)]))
  /\ (res = 1 ->
      forall s3, h (d2i_PUBKEY_bio bio NULL) s2 = (inl NULL, s3) ->
      run h (public_key self) s
      = (Raised InternalError, s3,
         [_create_mem_bio_gc; i2d_PUBKEY_bio bio (priv_evp_pkey self);
          d2i_PUBKEY_bio bio NULL]))
  /\ (forall pk s' t,
      run h (public_key self) s = (Returned pk, s', t) ->
      pub_evp_pkey pk <> NULL).
Proof.
  intros E1 E2. unfold public_key. cbn. rewrite E1. cbn. rewrite E2.
  split; [| split].
  - intros Hres. apply Z.eqb_neq in Hres. rewrite Hres. reflexivity.
  - intros -> s3 E3. cbn. rewrite E3. reflexivity.
  - intros pk s' t.
    destruct (Z.eqb_spec res 1) as [-> | Hres]; cbn; [| discriminate].
    destruct (h (d2i_PUBKEY_bio bio NULL) s2) as [[y | e] s3];
      [| discriminate].
    destruct (N.eqb_spec y NULL) as [-> | Hy]; cbn; [discriminate |].
    intros R. injection R as <- _ _. exact Hy.
Qed.

Lemma public_key_assert_order_witness :
  run Ref.handler (public_key (new_X25519PrivateKey 9%N)) Ref.session
  = (Raised InternalError,
     {| Ref.keys := Ref.keys Ref.session; Ref.bios := [[]] |},
     [_create_mem_bio_gc; i2d_PUBKEY_bio 1%N 9%N]).
Proof.
  destruct (public_key_assert_order Ref.state Ref.handler
              (new_X25519PrivateKey 9%N) Ref.session
              {| Ref.keys := Ref.keys Ref.session; Ref.bios := [[]] |}
              {| Ref.keys := Ref.keys Ref.session; Ref.bios := [[]] |}
              1%N 0 eq_refl eq_refl) as [H _].
  apply H. discriminate.
Defined.

(** ** The exceptions of each method *)

(** X4: whatever the provider and the arguments, an exception that comes
    out of a method is one of the method's own or was raised by the
    provider.  Of its own, [public_bytes] raises only the ValueError on
    Raw or the fatal [InternalError], [private_bytes] only its ValueError
    on Raw or [InternalError], and [public_key] only [InternalError]. *)
Theorem method_exceptions (St : Type) (h : provider St) (s : St) (e : exn) :
  (forall pk encoding format,
      fst (fst (run h (public_bytes pk encoding format) s)) = Raised e ->
      e = ValueError "When using Raw both encoding and format must be Raw"
      \/ e = InternalError \/ provider_raised h e)
  /\ (forall sk encoding format encryption_algorithm,
      fst (fst (run h (private_bytes sk encoding format encryption_algorithm) s))
      = Raised e ->
      e = ValueError
            "When using Raw both encoding and format must be Raw and encryption_algorithm must be NoEncryption()"
      \/ e = InternalError \/ provider_raised h e)
  /\ (forall sk,
      fst (fst (run h (public_key sk) s)) = Raised e ->
      e = InternalError \/ provider_raised h e).
Proof.
  assert (Hassert : forall (A : Type) (ok : bool) (q : prog A),
             may_raise (openssl_assert ok ;; q) e ->
             e = InternalError \/ (ok = true /\ may_raise q e)).
  { intros A [|] q M; simpl in M; [right; split; trivial | left; congruence]. }
  assert (Hpub : forall pk, may_raise (_raw_public_bytes pk) e ->
                            e = InternalError).
  { intros pk [[[res written] buflen] M].
    apply Hassert in M. destruct M as [-> | [_ M]]; [reflexivity |].
    apply Hassert in M. destruct M as [-> | [_ []]]. reflexivity. }
  assert (Hpriv : forall sk, may_raise (_raw_private_bytes sk) e ->
                             e = InternalError).
  { intros sk [[[res written] buflen] M].
    apply Hassert in M. destruct M as [-> | [_ M]]; [reflexivity |].
    apply Hassert in M. destruct M as [-> | [_ []]]. reflexivity. }
  repeat split.
  - intros pk encoding format R.
    destruct (run_raised_origin _ _ h _ s e R) as [M | M]; [| auto].
    destruct encoding, format; simpl in M;
      try (left; congruence); try (right; left; apply (Hpub pk M));
      destruct M as [r []].
  - intros sk encoding format alg R.
    destruct (run_raised_origin _ _ h _ s e R) as [M | M]; [| auto].
    destruct encoding, format, alg; simpl in M;
      try (left; congruence); try (right; left; apply (Hpriv sk M));
      destruct M as [r []].
  - intros sk R.
    destruct (run_raised_origin _ _ h _ s e R) as [M | M]; [| auto].
    left. destruct M as [bio [res M]].
    apply Hassert in M. destruct M as [-> | [_ [y M]]]; [reflexivity |].
    apply Hassert in M. destruct M as [-> | [_ []]]. reflexivity.
Qed.

Lemma method_exceptions_witness :
  fst (fst (run Ref.handler
              (private_bytes (new_X25519PrivateKey 3%N) Encoding_Raw
                 PrivateFormat_Raw NoEncryption) Ref.session))
  = Raised InternalError
  /\ (InternalError
      = ValueError
          "When using Raw both encoding and format must be Raw and encryption_algorithm must be NoEncryption()"
      \/ InternalError = InternalError
      \/ provider_raised Ref.handler InternalError).
Proof.
  assert (R : fst (fst (run Ref.handler
                          (private_bytes (new_X25519PrivateKey 3%N)
                             Encoding_Raw PrivateFormat_Raw NoEncryption)
                          Ref.session))
              = Raised InternalError) by reflexivity.
  split; [exact R |].
  destruct (method_exceptions Ref.state Ref.handler Ref.session InternalError)
    as (_ & H & _).
  exact (H _ _ _ _ R).
Defined.

(** ** What the methods ask of the provider *)

(** X5: whatever the provider answers, no run of [public_bytes] and no
    run of [public_key] issues a call that makes the backend hand out
    private key material (the raw private export or the structured
    private serialization), although [public_key] works on the handle of
    a private key. *)
Theorem public_methods_never_export_private_key (St : Type)
    (h : provider St) (s : St) :
  (forall pk encoding format,
      forallb (fun c => negb (exports_private_key c))
        (snd (run h (public_bytes pk encoding format) s)) = true)
  /\ (forall sk,
      forallb (fun c => negb (exports_private_key c))
        (snd (run h (public_key sk) s)) = true).
Proof.
  repeat split.
  - intros pk encoding format.
    destruct encoding, format; try reflexivity;
      try (unfold public_bytes, invoke; simpl;
           destruct (h _ s) as [[b | e] s']; reflexivity).
    change (public_bytes pk Encoding_Raw PublicFormat_Raw)
      with (_raw_public_bytes pk).
    rewrite run_raw_public_bytes. cbv zeta.
    destruct (h _ s) as [[[[res written] buflen] | e] s']; reflexivity.
  - intros sk. unfold public_key. cbn.
    destruct (h _create_mem_bio_gc s) as [[bio | e] s1]; [| reflexivity].
    cbn.
    destruct (h (i2d_PUBKEY_bio bio (priv_evp_pkey sk)) s1)
      as [[res | e] s2]; [| reflexivity].
    destruct (res =? 1); cbn; [| reflexivity].
    destruct (h (d2i_PUBKEY_bio bio NULL) s2) as [[y | e] s3];
      [| reflexivity].
    destruct (y =? NULL)%N; reflexivity.
Qed.

(** X6: every method is a bounded conversation with the provider, with
    no retry: whatever the provider answers, [public_bytes] and
    [private_bytes] issue at most one call and [public_key] at most
    three. *)
Theorem call_budget (St : Type) (h : provider St) (s : St) :
  (forall pk encoding format,
      (List.length (snd (run h (public_bytes pk encoding format) s)) <= 1)%nat)
  /\ (forall sk encoding format encryption_algorithm,
      (List.length
         (snd (run h (private_bytes sk encoding format encryption_algorithm) s))
       <= 1)%nat)
  /\ (forall sk,
      (List.length (snd (run h (public_key sk) s)) <= 3)%nat).
Proof.
  repeat split.
  - intros pk encoding format.
    destruct encoding, format; try (simpl; lia);
      try (unfold public_bytes, invoke; simpl;
           destruct (h _ s) as [[b | e] s']; simpl; lia).
    change (public_bytes pk Encoding_Raw PublicFormat_Raw)
      with (_raw_public_bytes pk).
    rewrite run_raw_public_bytes. cbv zeta.
    destruct (h _ s) as [[[[res written] buflen] | e] s']; simpl; lia.
  - intros sk encoding format alg.
    destruct encoding, format, alg; try (simpl; lia);
      try (unfold private_bytes, invoke; simpl;
           destruct (h _ s) as [[b | e] s']; simpl; lia).
    change (private_bytes sk Encoding_Raw PrivateFormat_Raw NoEncryption)
      with (_raw_private_bytes sk).
    rewrite run_raw_private_bytes. cbv zeta.
    destruct (h _ s) as [[[[res written] buflen] | e] s']; simpl; lia.
  - intros sk. unfold public_key. cbn.
    destruct (h _create_mem_bio_gc s) as [[bio | e] s1]; [| simpl; lia].
    cbn.
    destruct (h (i2d_PUBKEY_bio bio (priv_evp_pkey sk)) s1)
      as [[res | e] s2]; [| simpl; lia].
    destruct (res =? 1); cbn; [| lia].
    destruct (h (d2i_PUBKEY_bio bio NULL) s2) as [[y | e] s3];
      [| simpl; lia].
    destruct (y =? NULL)%N; simpl; lia.
Qed.

(** ** Key agreement *)

Section KeyAgreement.

Variable St : Type.
Variable h : provider St.
Variable key_pub key_priv : St -> EVP_PKEY -> option bytes.
Variable bio_keys : St -> BIO -> option (list bytes).
Variable X25519 : bytes -> bytes -> bytes.
Variable basepoint : bytes.
Hypothesis HC : provider_contract h key_pub key_priv bio_keys X25519 basepoint.

(** X7: against a provider that meets the contract, when two valid
    private keys, with scalars [da] and [db] on which the X25519 function
    of the provider obeys the Diffie-Hellman law, each derive their
    public key and exchange with the public key of the other, the whole
    agreement succeeds and both sides hold the same secret, the X25519
    function of one scalar and the public point of the other. *)
Theorem key_agreement_agrees (a b : _X25519PrivateKey) (s : St)
    (da db : bytes) :
  valid_private key_pub key_priv X25519 basepoint s a da ->
  valid_private key_pub key_priv X25519 basepoint s b db ->
  X25519 da (X25519 db basepoint) = X25519 db (X25519 da basepoint) ->
  exists z s' t,
    run h (key_agreement a b) s = (Returned (z, z), s', t)
    /\ z = X25519 da (X25519 db basepoint).
Proof.
  intros [Ha Hpa] [Hb Hpb] Hdh.
  pose proof (run_frame_pub St h key_pub key_priv bio_keys X25519 basepoint HC)
    as Fpub.
  pose proof (run_frame_priv St h key_pub key_priv bio_keys X25519 basepoint HC)
    as Fpriv.
  destruct (public_key_contract St h key_pub key_priv bio_keys X25519
              basepoint HC a s _ Hpa) as (ya & s1 & t1 & R1 & Ka).
  pose proof (Fpriv _ (public_key a) s _ _ Ha) as Ha1.
  pose proof (Fpriv _ (public_key a) s _ _ Hb) as Hb1.
  pose proof (Fpub _ (public_key a) s _ _ Hpb) as Hpb1.
  rewrite R1 in Ha1, Hb1, Hpb1. cbn [fst snd] in Ha1, Hb1, Hpb1.
  destruct (public_key_contract St h key_pub key_priv bio_keys X25519
              basepoint HC b s1 _ Hpb1) as (yb & s2 & t2 & R2 & Kb).
  pose proof (Fpriv _ (public_key b) s1 _ _ Ha1) as Ha2.
  pose proof (Fpriv _ (public_key b) s1 _ _ Hb1) as Hb2.
  pose proof (Fpub _ (public_key b) s1 _ _ Ka) as Ka2.
  rewrite R2 in Ha2, Hb2, Ka2. cbn [fst snd] in Ha2, Hb2, Ka2.
  destruct (exchange_contract St h key_pub key_priv bio_keys X25519
              basepoint HC a (new_X25519PublicKey yb) s2 _ _ Ha2 Kb)
    as (s3 & t3 & R3).
  pose proof (Fpriv _ (exchange a (PyPublicKey (new_X25519PublicKey yb)))
                s2 _ _ Hb2) as Hb3.
  pose proof (Fpub _ (exchange a (PyPublicKey (new_X25519PublicKey yb)))
                s2 _ _ Ka2) as Ka3.
  rewrite R3 in Hb3, Ka3. cbn [fst snd] in Hb3, Ka3.
  destruct (exchange_contract St h key_pub key_priv bio_keys X25519
              basepoint HC b (new_X25519PublicKey ya) s3 _ _ Hb3 Ka3)
    as (s4 & t4 & R4).
  rewrite <- Hdh in R4.
  exists (X25519 da (X25519 db basepoint)), s4.
  eexists. split; [| reflexivity].
  unfold key_agreement.
  eapply run_bind_returned; [exact R1 |].
  eapply run_bind_returned; [exact R2 |].
  eapply run_bind_returned; [exact R3 |].
  eapply run_bind_returned; [exact R4 |].
  reflexivity.
Qed.

End KeyAgreement.

Lemma key_agreement_agrees_witness :
  exists z s' t,
    run Ref.handler
      (key_agreement (new_X25519PrivateKey 1%N) (new_X25519PrivateKey 2%N))
      Ref.session
    = (Returned (z, z), s', t)
    /\ z = RFC7748.X25519 Ref.alice (RFC7748.X25519 Ref.bob RFC7748.basepoint).
Proof.
  apply (key_agreement_agrees Ref.state Ref.handler Ref.key_pub Ref.key_priv
           Ref.bio_keys RFC7748.X25519 RFC7748.basepoint ref_contract
           (new_X25519PrivateKey 1%N) (new_X25519PrivateKey 2%N)
           Ref.session Ref.alice Ref.bob).
  - split; vm_compute; reflexivity.
  - split; vm_compute; reflexivity.
  - vm_compute. reflexivity.
Defined.
